(** * quicknlp.modules.transformer: residual sublayers, attention blocks,
      transformer layers and the encoder / decoder stacks.

    The Python module is embedded function by function.  Tensors are the
    contiguous torch tensors: a shape and a flat row-major buffer whose
    length is the product of the shape.  Exceptions are a [result];
    the random generator that weight initialisation and dropout draw from
    is threaded explicitly. *)

From Stdlib Require Import List Arith ZArith QArith Bool Lia Eqdep_dec.
Import ListNotations.
Open Scope nat_scope.

Set Implicit Arguments.

(** ** Exceptions and results *)

Inductive exn : Set :=
| TypeError | IndexError | RuntimeError | ValueError
| ZeroDivisionError | ConfigurationError.

Inductive result (A : Type) : Type :=
| Ok (a : A)
| Raise (e : exn).
Arguments Ok {A} a.
Arguments Raise {A} e.

Definition rbind {A B} (x : result A) (f : A -> result B) : result B :=
  match x with Ok a => f a | Raise e => Raise e end.

(** ** Shapes and flat buffers *)

Definition numel (s : list nat) : nat := fold_right Nat.mul 1 s.

Fixpoint shape_eqb (a b : list nat) : bool :=
  match a, b with
  | [], [] => true
  | x :: a', y :: b' => (x =? y) && shape_eqb a' b'
  | _, _ => false
  end.

(** [chunks m n l]: the [n] consecutive blocks of [m] elements of [l]. *)
Fixpoint chunks {A} (m n : nat) (l : list A) : list (list A) :=
  match n with
  | O => []
  | S n' => firstn m l :: chunks m n' (skipn m l)
  end.

Fixpoint map2 {A B C} (f : A -> B -> C) (l : list A) (l' : list B) : list C :=
  match l, l' with
  | a :: t, b :: t' => f a b :: map2 f t t'
  | _, _ => []
  end.

(** ** Tensors *)

Section Tensor.
Variable T : Type.
(** The value used to fill a buffer that is too short; no operation
    below ever needs it on tensors built by the operations themselves. *)
Variable pad : T.

Record tensor : Type := MkTensor {
  shape : list nat;
  data : list T;
  tensor_ok : (length data =? numel shape) = true
}.

Definition fit (n : nat) (d : list T) : list T :=
  firstn n d ++ repeat pad (n - length d).

Lemma fit_length n d : length (fit n d) = n.
Proof.
  unfold fit. rewrite length_app, length_firstn, repeat_length. lia.
Qed.

Lemma fit_ok s d : (length (fit (numel s) d) =? numel s) = true.
Proof. apply Nat.eqb_eq, fit_length. Qed.

(** The tensor of shape [s] over the buffer [d]. *)
Definition tensor_of (s : list nat) (d : list T) : tensor :=
  MkTensor s (fit (numel s) d) (fit_ok s d).

(** [t.size()] *)
Definition size (t : tensor) : list nat := shape t.

(** Iteration over a tensor ([for step in t], [enumerate(t, 1)]): the
    sub-tensors along dimension 0; a 0-d tensor is not iterable. *)
Definition unbind (t : tensor) : result (list tensor) :=
  match shape t with
  | [] => Raise TypeError
  | n :: s => Ok (map (tensor_of s) (chunks (numel s) n (data t)))
  end.

(** [t.shape[0]] *)
Definition shape0 (t : tensor) : result nat :=
  match shape t with
  | [] => Raise IndexError
  | n :: _ => Ok n
  end.

(** [t[:k]] for a non-negative [k]: the first [min k n] sub-tensors. *)
Definition slice_to (k : nat) (t : tensor) : result tensor :=
  match shape t with
  | [] => Raise IndexError
  | n :: s => Ok (tensor_of (Nat.min k n :: s)
                            (firstn (Nat.min k n * numel s) (data t)))
  end.

(** [torch.stack(ts, dim=0)]: a non-empty list of equally shaped
    tensors becomes one tensor with a new leading dimension. *)
Definition stack (ts : list tensor) : result tensor :=
  match ts with
  | [] => Raise RuntimeError
  | t :: rest =>
      if forallb (fun u => shape_eqb (shape u) (shape t)) rest
      then Ok (tensor_of (length ts :: shape t) (concat (map data ts)))
      else Raise RuntimeError
  end.

(** [t.view(s)] with an explicit shape.  A tensor here is its contents in
    row-major order; the memory layout (strides) is not part of it, so
    the exception torch raises on a tensor whose layout is not
    view-compatible has no counterpart: no theorem below concludes from
    [view] that a forward pass returns on every input of some shape; they
    use it for what a returned view looks like. *)
Definition view (s : list nat) (t : tensor) : result tensor :=
  if numel s =? numel (shape t) then Ok (tensor_of s (data t))
  else Raise RuntimeError.

(** [t.view(-1, d)]: the leading dimension is inferred; torch refuses
    a zero [d] and an element count that [d] does not divide.  As for
    [view], a refusal for the memory layout is not modelled. *)
Definition view_rows (d : nat) (t : tensor) : result tensor :=
  let n := numel (shape t) in
  if negb (d =? 0) && (n mod d =? 0)
  then Ok (tensor_of [n / d; d] (data t))
  else Raise RuntimeError.

(** Element-wise map (activation functions). *)
Definition tmap (f : T -> T) (t : tensor) : tensor :=
  tensor_of (shape t) (map f (data t)).

(** *** Broadcasting, as torch aligns shapes from the last dimension *)

Fixpoint broadcast_rev (a b : list nat) : option (list nat) :=
  match a, b with
  | [], _ => Some b
  | _, [] => Some a
  | x :: a', y :: b' =>
      match broadcast_rev a' b' with
      | None => None
      | Some r =>
          if x =? y then Some (x :: r)
          else if x =? 1 then Some (y :: r)
          else if y =? 1 then Some (x :: r)
          else None
      end
  end.

Definition broadcast_shapes (a b : list nat) : option (list nat) :=
  option_map (@rev nat) (broadcast_rev (rev a) (rev b)).

(** [expand src tgt d]: the buffer [d] of shape [src] repeated along
    the size-1 dimensions to fill shape [tgt] (equal ranks). *)
Fixpoint expand (src tgt : list nat) (d : list T) : list T :=
  match src, tgt with
  | n :: src', m :: tgt' =>
      let rows := map (expand src' tgt') (chunks (numel src') n d) in
      if n =? m then concat rows
      else concat (repeat (hd [] rows) m)
  | _, _ => d
  end.

Definition lead_ones (rank : nat) (s : list nat) : list nat :=
  repeat 1 (rank - length s) ++ s.

(** [a + b] *)
Definition tensor_add (add : T -> T -> T) (a b : tensor) : result tensor :=
  match broadcast_shapes (shape a) (shape b) with
  | None => Raise RuntimeError
  | Some s =>
      Ok (tensor_of s
            (map2 add
               (expand (lead_ones (length s) (shape a)) s (data a))
               (expand (lead_ones (length s) (shape b)) s (data b))))
  end.

(** [torch.zeros_like(t)] for a scalar [zero]. *)
Definition zeros_like (zero : T) (t : tensor) : tensor :=
  tensor_of (shape t) (repeat zero (numel (shape t))).

(** The element-wise sum of two equally shaped tensors. *)
Definition pointwise (add : T -> T -> T) (a b : tensor) : tensor :=
  tensor_of (shape a) (map2 add (data a) (data b)).

End Tensor.

Arguments tensor_of {T} pad s d.
Arguments tensor_add {T} pad add a b.
Arguments zeros_like {T} pad zero t.
Arguments pointwise {T} pad add a b.
Arguments tmap {T} pad f t.
Arguments unbind {T} pad t.
Arguments slice_to {T} pad k t.
Arguments stack {T} pad ts.
Arguments view {T} pad s t.
Arguments view_rows {T} pad d t.

(** ** Computations that draw random numbers and may raise *)

Definition M (S A : Type) : Type := S -> result (A * S).

Definition ret {S A} (a : A) : M S A := fun s => Ok (a, s).

Definition bind {S A B} (m : M S A) (f : A -> M S B) : M S B :=
  fun s => match m s with
           | Ok (a, s') => f a s'
           | Raise e => Raise e
           end.

Definition raise {S A} (e : exn) : M S A := fun _ => Raise e.

Definition lift {S A} (x : result A) : M S A :=
  fun s => match x with Ok a => Ok (a, s) | Raise e => Raise e end.

(** The value of a run, without the generator state it ends in. *)
Definition value {S A} (x : result (A * S)) : result A :=
  match x with Ok (a, _) => Ok a | Raise e => Raise e end.

Declare Scope monad_scope.
Delimit Scope monad_scope with monad.
Notation "x <- c ;; k" := (bind c (fun x => k))
  (at level 61, c at next level, right associativity) : monad_scope.
Notation "' p <- c ;; k" := (bind c (fun x => let 'p := x in k))
  (at level 61, p pattern, c at next level, right associativity) : monad_scope.
Open Scope monad_scope.

(** [[f(x) for x in l]] with effects, in list order. *)
Fixpoint mapM {S A B} (f : A -> M S B) (l : list A) : M S (list B) :=
  match l with
  | [] => ret []
  | a :: t => b <- f a ;; bs <- mapM f t ;; ret (b :: bs)
  end.

(** [l[i]] on a Python list or [nn.ModuleList]. *)
Definition index {A} (l : list A) (i : nat) : result A :=
  match nth_error l i with
  | Some a => Ok a
  | None => Raise IndexError
  end.

(** ** The modules this file imports

    [torch.nn.Linear], [torch.nn.Dropout], [.layer_norm.LayerNorm] and
    [.attention.MultiHeadAttention] are not defined in transformer.py.
    Each is a record of the arguments it is constructed with and its
    weights; how the weights are drawn and what the forward pass
    computes belongs to the [Backend]. *)

Record Linear (W : Type) : Type := MkLinear {
  lin_in_features : nat;
  lin_out_features : nat;
  lin_weights : W
}.

Record LayerNorm (W : Type) : Type := MkLayerNorm {
  ln_features : list nat;
  ln_weights : W
}.

Record MultiHeadAttention (W : Type) : Type := MkMultiHeadAttention {
  mha_num_heads : nat;
  mha_nhid : nat;
  mha_keys_dim : nat;
  mha_values_dim : nat;
  mha_query_dim : nat;
  mha_p : Q;
  mha_weights : W
}.

Record Dropout : Type := MkDropout { drop_p : Q }.

Class Backend : Type := {
  (** tensor elements *)
  T : Type;
  zero : T;
  add : T -> T -> T;
  relu : T -> T;
  (** the state of the random generator *)
  Rng : Type;
  (** weights and their initialisation *)
  LinearW : Type;
  LayerNormW : Type;
  AttentionW : Type;
  linear_weights : nat -> nat -> M Rng LinearW;
  layer_norm_weights : list nat -> M Rng LayerNormW;
  attention_weights : nat -> nat -> nat -> nat -> nat -> Q -> M Rng AttentionW;
  (** forward passes; [mha_forward m training query keys values] *)
  linear_forward : Linear LinearW -> tensor T -> result (tensor T);
  layer_norm_forward : LayerNorm LayerNormW -> tensor T -> result (tensor T);
  mha_forward : MultiHeadAttention AttentionW -> bool ->
                tensor T -> tensor T -> tensor T -> M Rng (tensor T);
  (** the random zeroing and rescaling of an active dropout *)
  bernoulli_mask : Q -> tensor T -> Rng -> tensor T * Rng
}.

Section Transformer.
Context {B : Backend}.

Local Abbreviation tensor := (tensor T).

(** The training / inference mode of the whole model ([model.train()],
    [model.eval()]). *)
Variable training : bool.

(** *** torch.nn modules *)

Definition Linear_init (in_features out_features : nat) : M Rng (Linear LinearW) :=
  w <- linear_weights in_features out_features ;;
  ret (MkLinear in_features out_features w).

Definition LayerNorm_init (features : list nat) : M Rng (LayerNorm LayerNormW) :=
  w <- layer_norm_weights features ;;
  ret (MkLayerNorm features w).

Definition MultiHeadAttention_init (num_heads nhid keys_dim values_dim query_dim : nat)
    (p : Q) : M Rng (MultiHeadAttention AttentionW) :=
  w <- attention_weights num_heads nhid keys_dim values_dim query_dim p ;;
  ret (MkMultiHeadAttention num_heads nhid keys_dim values_dim query_dim p w).

(** [nn.Dropout(p)] refuses a probability outside [0, 1]. *)
Definition Dropout_init (p : Q) : M Rng Dropout :=
  if Qle_bool 0 p && Qle_bool p 1 then ret (MkDropout p)
  else raise ValueError.

Definition dropout_off (p : Q) : bool := negb training || Qeq_bool p 0.

(** Dropout is the identity in inference mode and at rate 0. *)
Definition Dropout_forward (d : Dropout) (x : tensor) : M Rng tensor :=
  if dropout_off (drop_p d) then ret x
  else fun r => Ok (bernoulli_mask (drop_p d) x r).

Definition ReLU_forward (x : tensor) : tensor := tmap zero relu x.

(** *** PositionFeedForward *)

Record PositionFeedForward : Type := MkPositionFeedForward {
  pff_in_features : nat;
  pff_out_features : nat;
  pff_nhid : nat;
  ff_linear1 : Linear LinearW;
  ff_linear2 : Linear LinearW;
  ff_dropout : Dropout
}.

Definition PositionFeedForward_init (in_features out_features nhid : nat) (p : Q)
    : M Rng PositionFeedForward :=
  l1 <- Linear_init in_features nhid ;;
  l2 <- Linear_init nhid out_features ;;
  d <- Dropout_init p ;;
  ret (MkPositionFeedForward in_features out_features nhid l1 l2 d).

Definition PositionFeedForward_forward (m : PositionFeedForward) (inputs : tensor)
    : M Rng tensor :=
  h <- lift (linear_forward (ff_linear1 m) inputs) ;;
  o <- lift (linear_forward (ff_linear2 m) (ReLU_forward h)) ;;
  Dropout_forward (ff_dropout m) o.

(** *** SubLayer *)

(** [self.in_features = in_features,] stores a one-element tuple, and
    that tuple is what [LayerNorm] is constructed with. *)
Record SubLayer : Type := MkSubLayer {
  sub_in_features : list nat;
  layer_norm : LayerNorm LayerNormW
}.

Definition SubLayer_init (in_features : nat) : M Rng SubLayer :=
  ln <- LayerNorm_init [in_features] ;;
  ret (MkSubLayer [in_features] ln).

Definition SubLayer_forward (m : SubLayer) (input_tensor : tensor)
    (sublayer : tensor -> M Rng tensor) : M Rng tensor :=
  normed <- lift (layer_norm_forward (layer_norm m) input_tensor) ;;
  out <- sublayer normed ;;
  lift (tensor_add zero add input_tensor out).

(** *** AttentionLayer *)

Record AttentionLayer : Type := MkAttentionLayer {
  al_dim : nat;
  al_nhid : nat;
  al_attention : MultiHeadAttention AttentionW
}.

(** [in_features // num_heads] raises on a zero divisor; nothing
    compares [in_features] with [nhid * num_heads]. *)
Definition floor_div (a b : nat) : result nat :=
  if b =? 0 then Raise ZeroDivisionError else Ok (a / b).

Definition AttentionLayer_init (in_features num_heads : nat) (p : Q)
    : M Rng AttentionLayer :=
  nhid <- lift (floor_div in_features num_heads) ;;
  att <- MultiHeadAttention_init num_heads nhid in_features in_features in_features p ;;
  ret (MkAttentionLayer in_features nhid att).

(** The arguments of the kernel call of one loop iteration:
    [query=input_step, keys=keys_vector[:mask_index],
     values=values_vector[:mask_index]]. *)
Definition kernel_inputs (input_tensor keys_vector values_vector : tensor)
    (mask : bool) (index : nat) (input_step : tensor)
    : result (tensor * tensor * tensor) :=
  rbind (if mask then Ok index else shape0 input_tensor) (fun mask_index =>
  rbind (slice_to zero mask_index keys_vector) (fun keys =>
  rbind (slice_to zero mask_index values_vector) (fun values =>
  Ok (input_step, keys, values)))).

(** The body of [for index, input_step in enumerate(input_tensor, 1)],
    over the remaining steps. *)
Fixpoint attention_loop (m : AttentionLayer)
    (input_tensor keys_vector values_vector : tensor) (mask : bool)
    (index : nat) (steps : list tensor) (self_attention_outputs : list tensor)
    : M Rng (list tensor) :=
  match steps with
  | [] => ret self_attention_outputs
  | input_step :: rest =>
      '(query, keys, values) <-
         lift (kernel_inputs input_tensor keys_vector values_vector mask index input_step) ;;
      out <- mha_forward (al_attention m) training query keys values ;;
      attention_loop m input_tensor keys_vector values_vector mask (S index) rest
                     (self_attention_outputs ++ [out])
  end.

Definition AttentionLayer_forward (m : AttentionLayer)
    (input_tensor keys_vector values_vector : tensor) (mask : bool) : M Rng tensor :=
  steps <- lift (unbind zero input_tensor) ;;
  outs <- attention_loop m input_tensor keys_vector values_vector mask 1 steps [] ;;
  lift (stack zero outs).

(** *** TransformerLayer *)

Record TransformerLayer : Type := MkTransformerLayer {
  tl_dim : nat;
  tl_nhid : nat;
  tl_attention : AttentionLayer;
  tl_linear : PositionFeedForward;
  tl_sublayers : list SubLayer
}.

Definition TransformerLayer_init (in_features num_heads ffnhid : nat) (p : Q)
    : M Rng TransformerLayer :=
  nhid <- lift (floor_div in_features num_heads) ;;
  attention <- AttentionLayer_init in_features num_heads p ;;
  linear <- PositionFeedForward_init in_features in_features ffnhid p ;;
  s0 <- SubLayer_init in_features ;;
  s1 <- SubLayer_init in_features ;;
  ret (MkTransformerLayer in_features nhid attention linear [s0; s1]).

Definition TransformerLayer_forward (m : TransformerLayer) (input_tensor : tensor)
    : M Rng tensor :=
  let shape := size input_tensor in
  s0 <- lift (index (tl_sublayers m) 0) ;;
  attention_output <-
    SubLayer_forward s0 input_tensor
      (fun x => AttentionLayer_forward (tl_attention m) x x x false) ;;
  s1 <- lift (index (tl_sublayers m) 1) ;;
  flat <- lift (view_rows zero (tl_dim m) attention_output) ;;
  ff <- SubLayer_forward s1 flat (PositionFeedForward_forward (tl_linear m)) ;;
  lift (view zero shape ff).

(** *** TransformerLayerDecoder, a subclass of TransformerLayer *)

Record TransformerLayerDecoder : Type := MkTransformerLayerDecoder {
  tld_base : TransformerLayer;
  decoder_attention : AttentionLayer
}.

Definition TransformerLayerDecoder_init (in_features num_heads ffnhid : nat) (p : Q)
    : M Rng TransformerLayerDecoder :=
  base <- TransformerLayer_init in_features num_heads ffnhid p ;;
  dec_att <- AttentionLayer_init in_features num_heads p ;;
  s2 <- SubLayer_init in_features ;;
  ret (MkTransformerLayerDecoder
         (MkTransformerLayer (tl_dim base) (tl_nhid base) (tl_attention base)
            (tl_linear base) (tl_sublayers base ++ [s2]))
         dec_att).

Definition TransformerLayerDecoder_forward (m : TransformerLayerDecoder)
    (encoder_input decoder_input : tensor) : M Rng tensor :=
  let self := tld_base m in
  let shape := size decoder_input in
  s0 <- lift (index (tl_sublayers self) 0) ;;
  att_output <-
    SubLayer_forward s0 decoder_input
      (fun x => AttentionLayer_forward (tl_attention self) x x x true) ;;
  s1 <- lift (index (tl_sublayers self) 1) ;;
  dec_att_output <-
    SubLayer_forward s1 att_output
      (fun x => AttentionLayer_forward (tl_attention self) x
                  encoder_input encoder_input false) ;;
  s2 <- lift (index (tl_sublayers self) 2) ;;
  flat <- lift (view_rows zero (tl_dim self) dec_att_output) ;;
  ff <- SubLayer_forward s2 flat (PositionFeedForward_forward (tl_linear self)) ;;
  lift (view zero shape ff).

(** *** Per-layer hyperparameters *)

(** [num_heads] and [ffnhid] are given as one number or as a list. *)
Inductive hyper : Type :=
| Scalar (v : nat)
| PerLayer (l : list nat).

(** Modelled from the spec: [quicknlp.utils.get_list] is imported by
    transformer.py and defined outside it.  A single scalar is
    broadcast to all layers; a list must have length [num_layers],
    and a mismatch is a configuration error. *)
Definition get_list (value : hyper) (num_layers : nat) : result (list nat) :=
  match value with
  | Scalar v => Ok (repeat v num_layers)
  | PerLayer l =>
      if length l =? num_layers then Ok l else Raise ConfigurationError
  end.

(** *** TransformerEncoder *)

Record TransformerEncoder : Type := MkTransformerEncoder {
  enc_layers : list TransformerLayer
}.

Definition TransformerEncoder_init (num_layers in_features : nat)
    (num_heads ffnhid : hyper) (dropout : Q) : M Rng TransformerEncoder :=
  ffnhid <- lift (get_list ffnhid num_layers) ;;
  num_heads <- lift (get_list num_heads num_layers) ;;
  layers <- mapM (fun i =>
                    f <- lift (index ffnhid i) ;;
                    h <- lift (index num_heads i) ;;
                    TransformerLayer_init in_features h f dropout)
                 (seq 0 num_layers) ;;
  ret (MkTransformerEncoder layers).

(** [for layer in self.layers: ...] with the two variables the loop
    updates. *)
Fixpoint encoder_loop (layers : list TransformerLayer) (inputs : tensor)
    (output_tensors : list tensor) : M Rng (tensor * list tensor) :=
  match layers with
  | [] => ret (inputs, output_tensors)
  | layer :: rest =>
      inputs <- TransformerLayer_forward layer inputs ;;
      encoder_loop rest inputs (output_tensors ++ [inputs])
  end.

Definition TransformerEncoder_forward (m : TransformerEncoder)
    (input_tensors : tensor) : M Rng (tensor * list tensor) :=
  encoder_loop (enc_layers m) input_tensors [].

(** *** TransformerDecoder *)

Record TransformerDecoder : Type := MkTransformerDecoder {
  dec_layers : list TransformerLayerDecoder
}.

Definition TransformerDecoder_init (num_layers in_features : nat)
    (num_heads ffnhid : hyper) (dropout : Q) : M Rng TransformerDecoder :=
  ffnhid <- lift (get_list ffnhid num_layers) ;;
  num_heads <- lift (get_list num_heads num_layers) ;;
  layers <- mapM (fun i =>
                    f <- lift (index ffnhid i) ;;
                    h <- lift (index num_heads i) ;;
                    TransformerLayerDecoder_init in_features h f dropout)
                 (seq 0 num_layers) ;;
  ret (MkTransformerDecoder layers).

(** [for enc_inputs, layer in zip(encoder_inputs, self.layers): ...] *)
Fixpoint decoder_loop (pairs : list (tensor * TransformerLayerDecoder))
    (dec_inputs : tensor) (output_tensors : list tensor)
    : M Rng (tensor * list tensor) :=
  match pairs with
  | [] => ret (dec_inputs, output_tensors)
  | (enc_inputs, layer) :: rest =>
      dec_inputs <- TransformerLayerDecoder_forward layer enc_inputs dec_inputs ;;
      decoder_loop rest dec_inputs (output_tensors ++ [dec_inputs])
  end.

Definition TransformerDecoder_forward (m : TransformerDecoder)
    (encoder_inputs : list tensor) (decoder_inputs : tensor)
    : M Rng (tensor * list tensor) :=
  decoder_loop (combine encoder_inputs (dec_layers m)) decoder_inputs [].

(** *** What the theorems below speak about *)

(** [row i y]: the sub-tensor of [y] at position [i], counted from 1. *)
Definition row (i : nat) (y : tensor) : option tensor :=
  match unbind zero y with
  | Ok rows => nth_error rows (i - 1)
  | Raise _ => None
  end.

(** The kernel calls of the attention loop from position [index] on, with
    the generator state before and after, and what they returned. *)
Inductive calls (m : AttentionLayer)
    (input_tensor keys_vector values_vector : tensor) (mask : bool)
    : nat -> list tensor -> Rng -> list tensor -> Rng -> Prop :=
| calls_nil index r :
    calls m input_tensor keys_vector values_vector mask index [] r [] r
| calls_cons index input_step rest r query keys values out r1 outs r' :
    kernel_inputs input_tensor keys_vector values_vector mask index input_step
      = Ok (query, keys, values) ->
    mha_forward (al_attention m) training query keys values r = Ok (out, r1) ->
    calls m input_tensor keys_vector values_vector mask (S index) rest r1 outs r' ->
    calls m input_tensor keys_vector values_vector mask index (input_step :: rest)
          r (out :: outs) r'.

(** [feeds layers x r outs r']: starting from [x] with generator state
    [r], the layers are applied in list order, each to the output of
    the one before; [outs] are their outputs, in order. *)
Inductive feeds : list TransformerLayer -> tensor -> Rng ->
                  list tensor -> Rng -> Prop :=
| feeds_nil x r : feeds [] x r [] r
| feeds_cons layer rest x r y r1 outs r' :
    TransformerLayer_forward layer x r = Ok (y, r1) ->
    feeds rest y r1 outs r' ->
    feeds (layer :: rest) x r (y :: outs) r'.

(** [feeds_pairwise encs layers x r outs r']: decoder layer [i] is
    applied to encoder output [i] and the running decoder state, until
    either list ends. *)
Inductive feeds_pairwise : list tensor -> list TransformerLayerDecoder ->
                           tensor -> Rng -> list tensor -> Rng -> Prop :=
| pairwise_no_encoder layers x r : feeds_pairwise [] layers x r [] r
| pairwise_no_layer encs x r : feeds_pairwise encs [] x r [] r
| pairwise_cons enc encs layer rest x r y r1 outs r' :
    TransformerLayerDecoder_forward layer enc x r = Ok (y, r1) ->
    feeds_pairwise encs rest y r1 outs r' ->
    feeds_pairwise (enc :: encs) (layer :: rest) x r (y :: outs) r'.

(** A per-layer list of the wrong length. *)
Definition mismatched (value : hyper) (num_layers : nat) : Prop :=
  match value with
  | Scalar _ => False
  | PerLayer l => length l <> num_layers
  end.

(** A computation is deterministic when what it returns, or the
    exception it raises, does not depend on the generator state. *)
Definition det {A} (m : M Rng A) : Prop :=
  forall r r', value (m r) = value (m r').

(** The kernel with its dropout disabled is deterministic. *)
Definition quiet_kernel : Prop :=
  forall (m : MultiHeadAttention AttentionW) (q k v : tensor),
    dropout_off (mha_p m) = true ->
    det (mha_forward m training q k v).

Definition quiet_layer (l : TransformerLayer) : Prop :=
  dropout_off (mha_p (al_attention (tl_attention l))) = true /\
  dropout_off (drop_p (ff_dropout (tl_linear l))) = true.

(** The layer [TransformerLayer(in_features, num_heads, ffnhid, p)]
    with the given weights. *)
Definition layer_with (in_features num_heads ffnhid : nat) (p : Q)
    (wa : AttentionW) (w1 w2 : LinearW) (n0 n1 : LayerNormW) : TransformerLayer :=
  let nhid := in_features / num_heads in
  MkTransformerLayer in_features nhid
    (MkAttentionLayer in_features nhid
       (MkMultiHeadAttention num_heads nhid in_features in_features in_features p wa))
    (MkPositionFeedForward in_features in_features ffnhid
       (MkLinear in_features ffnhid w1) (MkLinear ffnhid in_features w2)
       (MkDropout p))
    [MkSubLayer [in_features] (MkLayerNorm [in_features] n0);
     MkSubLayer [in_features] (MkLayerNorm [in_features] n1)].

Unset Implicit Arguments.

(** What the imported modules promise about shapes: normalisation and
    dropout keep the shape, a linear layer replaces the last dimension,
    and the kernel maps one query step of shape (batch, query_dim) and
    keys and values of shape (length, batch, dim) to the concatenation
    of [num_heads] heads of width [nhid]. *)
Record shape_contract : Prop := {
  layer_norm_shape :
    forall (m : LayerNorm LayerNormW) (x : tensor) f s,
      ln_features m = [f] -> shape x = s ++ [f] ->
      exists y, layer_norm_forward m x = Ok y /\ shape y = shape x;
  linear_shape :
    forall (l : Linear LinearW) (x : tensor) s,
      shape x = s ++ [lin_in_features l] ->
      exists y, linear_forward l x = Ok y /\ shape y = s ++ [lin_out_features l];
  kernel_shape :
    forall (m : MultiHeadAttention AttentionW) (q k v : tensor) bs kl r,
      shape q = [bs; mha_query_dim m] ->
      shape k = [kl; bs; mha_keys_dim m] ->
      shape v = [kl; bs; mha_values_dim m] ->
      exists y r', mha_forward m training q k v r = Ok (y, r') /\
                   shape y = [bs; mha_num_heads m * mha_nhid m];
  mask_shape :
    forall p (x : tensor) r, shape (fst (bernoulli_mask p x r)) = shape x
}.
Set Implicit Arguments.

End Transformer.

Arguments layer_norm_shape {B training}.
Arguments linear_shape {B training}.
Arguments kernel_shape {B training}.
Arguments mask_shape {B training}.

(** ** The embedding front-ends

    [NormEmbeddings] and [PositionalEncoding] come from
    quicknlp.modules.embeddings, outside transformer.py: records of their
    constructor arguments and weights, with the weights and the forward
    passes left to a [Frontend]. *)

Record NormEmbeddings (V W : Type) : Type := MkNormEmbeddings {
  ne_in_features : nat;
  ne_vocab : V;
  ne_padding_idx : option Z;
  ne_weights : W
}.

Record PositionalEncoding (W : Type) : Type := MkPositionalEncoding {
  pe_in_features : nat;
  pe_dropout : Q;
  pe_max_len : nat;
  pe_weights : W
}.

Class Frontend (B : Backend) : Type := {
  (** batches of token indices, and the vocabulary argument *)
  Tokens : Type;
  Vocab : Type;
  EmbeddingW : Type;
  PositionW : Type;
  embedding_weights : nat -> Vocab -> option Z -> M Rng EmbeddingW;
  position_weights : nat -> Q -> nat -> M Rng PositionW;
  norm_embeddings_forward :
    NormEmbeddings Vocab EmbeddingW -> Tokens -> result (tensor T);
  (** [positional_encoding_forward m training x]; it ends in a dropout *)
  positional_encoding_forward :
    PositionalEncoding PositionW -> bool -> tensor T -> M Rng (tensor T)
}.

Section Embedding.
Context {B : Backend} {F : Frontend B}.
Local Abbreviation tensor := (tensor T).
Variable training : bool.

(** [nn.Sequential(NormEmbeddings(...), PositionalEncoding(...))] *)
Record Embeddings : Type := MkEmbeddings {
  emb_norm : NormEmbeddings Vocab EmbeddingW;
  emb_position : PositionalEncoding PositionW
}.

Definition Embeddings_init (in_features : nat) (vocab : Vocab)
    (padding_idx : option Z) (dropout : Q) (max_len : nat) : M Rng Embeddings :=
  we <- embedding_weights in_features vocab padding_idx ;;
  wp <- position_weights in_features dropout max_len ;;
  ret (MkEmbeddings (MkNormEmbeddings in_features vocab padding_idx we)
                    (MkPositionalEncoding in_features dropout max_len wp)).

Definition Embeddings_forward (m : Embeddings) (input_tensors : Tokens) : M Rng tensor :=
  e <- lift (norm_embeddings_forward (emb_norm m) input_tensors) ;;
  positional_encoding_forward (emb_position m) training e.

(** *** TransformerEncoderEmbedding, a subclass of TransformerEncoder *)

Record TransformerEncoderEmbedding : Type := MkTransformerEncoderEmbedding {
  tee_base : TransformerEncoder;
  tee_embeddings : Embeddings
}.

Definition TransformerEncoderEmbedding_init (vocab : Vocab)
    (num_layers in_features : nat) (num_heads ffnhid : hyper) (dropout : Q)
    (padding_idx : option Z) (max_len : nat) : M Rng TransformerEncoderEmbedding :=
  base <- TransformerEncoder_init num_layers in_features num_heads ffnhid dropout ;;
  embeddings <- Embeddings_init in_features vocab padding_idx dropout max_len ;;
  ret (MkTransformerEncoderEmbedding base embeddings).

Definition TransformerEncoderEmbedding_forward (m : TransformerEncoderEmbedding)
    (input_tensors : Tokens) : M Rng (tensor * list tensor) :=
  embeddings <- Embeddings_forward (tee_embeddings m) input_tensors ;;
  TransformerEncoder_forward training (tee_base m) embeddings.

(** *** TransformerDecoderEmbedding, a subclass of TransformerDecoder *)

(** [TransformerDecoder.forward] takes its arguments as one tuple
    [inputs]; called with positional tensor arguments, [encoder_inputs, decoder_inputs = inputs] needs exactly
    two, and [zip] iterates a tensor along its first dimension. *)
Definition TransformerDecoder_forward_args (m : TransformerDecoder)
    (inputs : list tensor) : M Rng (tensor * list tensor) :=
  match inputs with
  | [encoder_inputs; decoder_inputs] =>
      rows <- lift (unbind zero encoder_inputs) ;;
      TransformerDecoder_forward training m rows decoder_inputs
  | _ => raise ValueError
  end.

Record TransformerDecoderEmbedding : Type := MkTransformerDecoderEmbedding {
  tde_base : TransformerDecoder;
  tde_embeddings : Embeddings
}.

Definition TransformerDecoderEmbedding_init (vocab : Vocab)
    (num_layers in_features : nat) (num_heads ffnhid : hyper) (dropout : Q)
    (padding_idx : option Z) (max_len : nat) : M Rng TransformerDecoderEmbedding :=
  base <- TransformerDecoder_init num_layers in_features num_heads ffnhid dropout ;;
  embeddings <- Embeddings_init in_features vocab padding_idx dropout max_len ;;
  ret (MkTransformerDecoderEmbedding base embeddings).

(** [super().forward(embeddings)] passes one positional argument. *)
Definition TransformerDecoderEmbedding_forward (m : TransformerDecoderEmbedding)
    (input_tensors : Tokens) : M Rng (tensor * list tensor) :=
  embeddings <- Embeddings_forward (tde_embeddings m) input_tensors ;;
  TransformerDecoder_forward_args (tde_base m) [embeddings].

End Embedding.

(** ** More of what the theorems speak about *)

Section Built.
Context {B : Backend}.

(** The decoder layer [TransformerLayerDecoder(in_features, num_heads,
    ffnhid, p)] with the given weights. *)
Definition decoder_layer_with (in_features num_heads ffnhid : nat) (p : Q)
    (wa : AttentionW) (w1 w2 : LinearW) (n0 n1 : LayerNormW)
    (wd : AttentionW) (n2 : LayerNormW) : TransformerLayerDecoder :=
  let base := layer_with in_features num_heads ffnhid p wa w1 w2 n0 n1 in
  let nhid := in_features / num_heads in
  MkTransformerLayerDecoder
    (MkTransformerLayer (tl_dim base) (tl_nhid base) (tl_attention base)
       (tl_linear base)
       (tl_sublayers base ++ [MkSubLayer [in_features] (MkLayerNorm [in_features] n2)]))
    (MkAttentionLayer in_features nhid
       (MkMultiHeadAttention num_heads nhid in_features in_features in_features p wd)).

End Built.

(** ** A backend over the integers

    Enough of a backend to run the definitions on concrete tensors:
    integer elements, a counter as random generator, weightless layers.
    The kernel adds to every query element the sum of the keys and values
    it is handed, so its output shows how much of them it received; an
    active dropout perturbs the result with the generator state. *)

Module ZB.

Definition zsum (l : list Z) : Z := fold_right Z.add 0%Z l.

Definition tick {A} (a : A) : M nat A := fun r => Ok (a, S r).

Definition active (training : bool) (p : Q) : bool :=
  training && negb (Qeq_bool p 0).

Definition linear (l : Linear unit) (x : tensor Z) : result (tensor Z) :=
  if last (shape x) 0 =? lin_in_features l
  then Ok (tensor_of 0%Z (removelast (shape x) ++ [lin_out_features l]) [])
  else Raise RuntimeError.

Definition kernel (m : MultiHeadAttention unit) (training : bool)
    (query keys values : tensor Z) : M nat (tensor Z) :=
  fun r =>
    let noise := if active training (mha_p m) then Z.of_nat r else 0%Z in
    let seen := (zsum (data keys) + zsum (data values) + noise)%Z in
    Ok (tensor_of 0%Z [hd 0 (shape query); mha_num_heads m * mha_nhid m]
                  (map (Z.add seen) (data query)),
        S r).

Definition mask (p : Q) (x : tensor Z) (r : nat) : tensor Z * nat :=
  (tmap 0%Z (Z.mul (Z.of_nat r)) x, S r).

#[export] Instance backend : Backend := {|
  T := Z;
  zero := 0%Z;
  add := Z.add;
  relu := Z.max 0;
  Rng := nat;
  LinearW := unit;
  LayerNormW := unit;
  AttentionW := unit;
  linear_weights := fun _ _ => tick tt;
  layer_norm_weights := fun _ => tick tt;
  attention_weights := fun _ _ _ _ _ _ => tick tt;
  linear_forward := linear;
  layer_norm_forward := fun _ x => Ok x;
  mha_forward := kernel;
  bernoulli_mask := mask
|}.

(** Integer tensors from a shape and a buffer. *)
Definition ten (s : list nat) (d : list Z) : tensor Z := tensor_of 0%Z s d.

(** What a run returned, as plain data. *)
Definition shown (x : result (tensor Z * nat)) : result (list nat * list Z) :=
  match x with
  | Ok (t, _) => Ok (shape t, data t)
  | Raise e => Raise e
  end.

End ZB.

(** ** Sample layers and tensors over the integer backend *)

Module Samples.
Import ZB.

Definition attention1 : AttentionLayer :=
  MkAttentionLayer 1 1 (MkMultiHeadAttention 1 1 1 1 1 0 tt).

Definition query1 : tensor Z := ten [1; 1; 1] [5%Z].
Definition step1 : tensor Z := ten [1; 1] [5%Z].
Definition query2 : tensor Z := ten [2; 1; 1] [5; 6]%Z.
Definition keys12 : tensor Z := ten [2; 1; 1] [1; 2]%Z.
Definition keys13 : tensor Z := ten [2; 1; 1] [1; 3]%Z.

(** A layer of width 4 with 2 heads, and the decoder layer over it. *)
Definition layer4 : TransformerLayer := layer_with 4 2 8 0 tt tt tt tt tt.
Definition declayer4 : TransformerLayerDecoder :=
  MkTransformerLayerDecoder
    (MkTransformerLayer 4 2 (tl_attention layer4) (tl_linear layer4)
       (tl_sublayers layer4 ++ [MkSubLayer [4] (MkLayerNorm [4] tt)]))
    attention1.
Definition encoder2 : TransformerEncoder := MkTransformerEncoder [layer4; layer4].
Definition decoder2 : TransformerDecoder := MkTransformerDecoder [declayer4; declayer4].

Definition input24 : tensor Z := ten [2; 1; 4] [1; 2; 3; 4; 5; 6; 7; 8]%Z.
Definition enc_out1 : tensor Z := ten [2; 1; 4] [74; 76; 78; 80; 82; 84; 86; 88]%Z.
Definition enc_out2 : tensor Z :=
  ten [2; 1; 4] [1444; 1448; 1452; 1456; 1460; 1464; 1468; 1472]%Z.
Definition dec_out1 : tensor Z :=
  ten [2; 1; 4] [116; 120; 124; 128; 236; 240; 244; 248]%Z.
Definition dec_out2 : tensor Z :=
  ten [2; 1; 4] [2488; 2504; 2520; 2536; 6840; 6856; 6872; 6888]%Z.

Definition sublayer2 : SubLayer := MkSubLayer [2] (MkLayerNorm [2] tt).
Definition input22 : tensor Z := ten [2; 2] [3; 4; 5; 6]%Z.

Definition input328 : tensor Z := ten [3; 1; 8] (map Z.of_nat (seq 1 24)).

End Samples.

(** ** A front-end over the integer backend, and more samples *)

Module ZF.
Import ZB Samples.

(** Every token index is repeated [in_features] times. *)
Definition embed (m : NormEmbeddings nat unit) (tokens : tensor Z)
    : result (tensor Z) :=
  Ok (tensor_of 0%Z (shape tokens ++ [ne_in_features m])
        (flat_map (fun z => repeat z (ne_in_features m)) (data tokens))).

#[export] Instance frontend : Frontend backend := {|
  Tokens := tensor Z;
  Vocab := nat;
  EmbeddingW := unit;
  PositionW := unit;
  embedding_weights := fun _ _ _ => tick tt;
  position_weights := fun _ _ _ => tick tt;
  norm_embeddings_forward := embed;
  positional_encoding_forward := fun _ _ x => ret x
|}.

Definition embeddings4 : Embeddings :=
  MkEmbeddings (MkNormEmbeddings 4 10 None tt) (MkPositionalEncoding 4 0 5000 tt).

Definition layer8 : TransformerLayer := layer_with 8 2 16 0 tt tt tt tt tt.
Definition declayer8 : TransformerLayerDecoder :=
  decoder_layer_with 8 2 16 0 tt tt tt tt tt tt tt.
Definition encoder8 : TransformerEncoder := MkTransformerEncoder [layer8; layer8].
Definition decoder8 : TransformerDecoder := MkTransformerDecoder [declayer8; declayer8].
Definition layer5 : TransformerLayer := layer_with 5 2 8 0 tt tt tt tt tt.
Definition feedforward46 : PositionFeedForward :=
  MkPositionFeedForward 4 6 8 (MkLinear 4 8 tt) (MkLinear 8 6 tt) (MkDropout 0).

Definition tokens21 : tensor Z := ten [2; 1] [3; 7]%Z.
Definition embedded214 : tensor Z := ten [2; 1; 4] [3; 3; 3; 3; 7; 7; 7; 7]%Z.

Definition embedded_out1 : tensor Z :=
  ten [2; 1; 4] [86; 86; 86; 86; 94; 94; 94; 94]%Z.
Definition embedded_out2 : tensor Z :=
  ten [2; 1; 4] [1612; 1612; 1612; 1612; 1628; 1628; 1628; 1628]%Z.
Definition encoder_embedding2 : TransformerEncoderEmbedding :=
  MkTransformerEncoderEmbedding encoder2 embeddings4.
Definition decoder_embedding2 : TransformerDecoderEmbedding :=
  MkTransformerDecoderEmbedding decoder2 embeddings4.

Definition empty_query : tensor Z := ten [0; 1; 1] [].
Definition scalar_query : tensor Z := ten [] [7%Z].
Definition input115 : tensor Z := ten [1; 1; 5] [1; 2; 3; 4; 5]%Z.
Definition input23 : tensor Z := ten [2; 3] [1; 1; 1; 1; 1; 1]%Z.
Definition target218 : tensor Z := ten [2; 1; 8] (map Z.of_nat (seq 1 16)).
Definition memory318 : tensor Z := ten [3; 1; 8] (map Z.of_nat (seq 1 24)).
Definition memory318' : tensor Z :=
  ten [3; 1; 8] (map Z.of_nat (seq 1 16) ++ repeat 0%Z 8).

End ZF.

(** ** Facts about the tensor operations *)

Lemma Ok_inj {A} (a b : A) : Ok a = Ok b -> a = b.
Proof. congruence. Qed.

Lemma shape_eqb_eq a b : shape_eqb a b = true <-> a = b.
Proof.
  revert b; induction a as [|x a IH]; intros [|y b]; simpl; split;
    try congruence; try reflexivity.
  - intros H. apply andb_true_iff in H as [H1 H2].
    apply Nat.eqb_eq in H1. apply IH in H2. congruence.
  - intros H. injection H as -> ->. rewrite Nat.eqb_refl. simpl.
    now apply IH.
Qed.

Lemma shape_eqb_refl a : shape_eqb a a = true.
Proof. now apply shape_eqb_eq. Qed.

Lemma chunks_length {A} m n (l : list A) : length (chunks m n l) = n.
Proof. revert l; induction n; simpl; intros; [reflexivity|now rewrite IHn]. Qed.

Lemma chunks_concat {A} m (ls : list (list A)) :
  Forall (fun d => length d = m) ls ->
  chunks m (length ls) (concat ls) = ls.
Proof.
  induction 1 as [|d ls Hd _ IH]; simpl; [reflexivity|].
  rewrite firstn_app, skipn_app, Hd, Nat.sub_diag, firstn_all2, skipn_all2 by lia.
  simpl. rewrite app_nil_r. now rewrite IH.
Qed.

Lemma concat_chunks {A} m n (l : list A) :
  length l = n * m -> concat (chunks m n l) = l.
Proof.
  revert l; induction n as [|n IH]; simpl; intros l H.
  - now destruct l.
  - rewrite IH, firstn_skipn; [reflexivity|].
    rewrite length_skipn. lia.
Qed.

Lemma chunks_Forall_length {A} m n (l : list A) :
  length l = n * m -> Forall (fun d => length d = m) (chunks m n l).
Proof.
  revert l; induction n as [|n IH]; simpl; intros l H; constructor.
  - rewrite length_firstn. lia.
  - apply IH. rewrite length_skipn. lia.
Qed.

Lemma map2_length {A B C} (f : A -> B -> C) l l' :
  length l' = length l -> length (map2 f l l') = length l.
Proof.
  revert l'; induction l; intros [|b l']; simpl; intros H; try congruence.
  now rewrite IHl by congruence.
Qed.

Section TensorFacts.
Variable T : Type.
Variable pad : T.
Implicit Types t u : tensor T.

Lemma fit_id n d : length d = n -> fit pad n d = d.
Proof.
  intros H. unfold fit. rewrite firstn_all2 by lia.
  replace (n - length d) with 0 by lia. apply app_nil_r.
Qed.

Lemma tensor_len t : length (data t) = numel (shape t).
Proof. apply Nat.eqb_eq, tensor_ok. Qed.

Lemma tensor_eq t u : shape t = shape u -> data t = data u -> t = u.
Proof.
  destruct t as [s d p], u as [s' d' p']; simpl. intros -> ->.
  f_equal. apply UIP_dec, bool_dec.
Qed.

Lemma tensor_of_id t : tensor_of pad (shape t) (data t) = t.
Proof. apply tensor_eq; simpl; [reflexivity|]. apply fit_id, tensor_len. Qed.

Lemma shape_tensor_of s d : shape (tensor_of pad s d) = s.
Proof. reflexivity. Qed.

Lemma data_tensor_of s d : length d = numel s -> data (tensor_of pad s d) = d.
Proof. intros H. simpl. now apply fit_id. Qed.

Lemma stack_shape ts y :
  stack pad ts = Ok y -> shape y = length ts :: shape (hd y ts).
Proof.
  destruct ts as [|t rest]; simpl; [discriminate|].
  destruct (forallb _ rest); [|discriminate].
  now intros [= <-].
Qed.

Lemma stack_shapes ts y :
  stack pad ts = Ok y -> forall u, In u ts -> shape u = shape (hd y ts).
Proof.
  destruct ts as [|t rest]; simpl; [discriminate|].
  destruct (forallb _ rest) eqn:E; [|discriminate].
  intros _ u [<-|Hin]; [reflexivity|].
  rewrite forallb_forall in E. now apply shape_eqb_eq, E.
Qed.

(** The sub-tensors of a stacked tensor are the stacked tensors. *)
Lemma unbind_stack ts y : stack pad ts = Ok y -> unbind pad y = Ok ts.
Proof.
  intros H. pose proof (stack_shapes _ H) as Hs.
  destruct ts as [|t rest]; [discriminate|].
  simpl in H, Hs. destruct (forallb _ rest); [|discriminate].
  injection H as <-. unfold unbind. cbn [shape tensor_of data].
  f_equal.
  assert (HF : Forall (fun d => length d = numel (shape t)) (map (@data T) (t :: rest))).
  { apply Forall_forall. intros d Hd. apply in_map_iff in Hd as (u & <- & Hu).
    rewrite tensor_len. f_equal. now apply Hs. }
  change (data t ++ concat (map (@data T) rest))
    with (concat (map (@data T) (t :: rest))).
  change (S (length rest)) with (length (t :: rest)).
  rewrite <- (length_map (@data T) (t :: rest)).
  rewrite fit_id.
  - rewrite (chunks_concat HF). rewrite map_map.
    rewrite <- (map_id (t :: rest)) at 2. apply map_ext_in.
    intros u Hu. rewrite <- (Hs u Hu). apply tensor_of_id.
  - clear Hs. cbn [numel fold_right]. fold (numel (shape t)).
    induction HF as [|d ds Hd _ IH]; simpl; [reflexivity|].
    rewrite length_app, IH, Hd. reflexivity.
Qed.

Lemma view_shape s t y : view pad s t = Ok y -> shape y = s.
Proof.
  unfold view. destruct (_ =? _); [|discriminate]. now intros [= <-].
Qed.

Lemma view_ok s t : numel s = numel (shape t) -> view pad s t = Ok (tensor_of pad s (data t)).
Proof. intros H. unfold view. now rewrite H, Nat.eqb_refl. Qed.

Lemma view_rows_ok d t n :
  d <> 0 -> numel (shape t) = n * d ->
  view_rows pad d t = Ok (tensor_of pad [n; d] (data t)).
Proof.
  intros Hd Hn. unfold view_rows. rewrite Hn.
  rewrite Nat.Div0.mod_mul, Nat.div_mul by assumption.
  apply Nat.eqb_neq in Hd. now rewrite Hd.
Qed.

Lemma broadcast_rev_same a : broadcast_rev a a = Some a.
Proof.
  induction a as [|x a IH]; simpl; [reflexivity|].
  now rewrite IH, Nat.eqb_refl.
Qed.

Lemma broadcast_shapes_same a : broadcast_shapes a a = Some a.
Proof.
  unfold broadcast_shapes. rewrite broadcast_rev_same. simpl.
  now rewrite rev_involutive.
Qed.

Lemma expand_same s (d : list T) : length d = numel s -> expand s s d = d.
Proof.
  revert d; induction s as [|n s IH]; intros d H; simpl; [reflexivity|].
  rewrite Nat.eqb_refl. simpl in H.
  rewrite <- (concat_chunks (numel s) n d H) at 2. f_equal.
  rewrite <- (map_id (chunks (numel s) n d)) at 2.
  apply map_ext_in. intros c Hc. apply IH.
  pose proof (chunks_Forall_length (numel s) n d H) as HF.
  rewrite Forall_forall in HF. now apply HF.
Qed.

Lemma lead_ones_same s : lead_ones (length s) s = s.
Proof. unfold lead_ones. now rewrite Nat.sub_diag. Qed.

(** On equal shapes [a + b] is the element-wise sum. *)
Lemma tensor_add_same (add : T -> T -> T) a b :
  shape a = shape b -> tensor_add pad add a b = Ok (pointwise pad add a b).
Proof.
  intros H. unfold tensor_add, pointwise.
  rewrite <- H, broadcast_shapes_same, lead_ones_same.
  rewrite !expand_same; [reflexivity| |]; rewrite tensor_len; congruence.
Qed.

Lemma map2_repeat_r (add : T -> T -> T) z (d : list T) :
  (forall x, add x z = x) -> map2 add d (repeat z (length d)) = d.
Proof. intros Hz; induction d; simpl; [reflexivity|]. now rewrite Hz, IHd. Qed.

Lemma pointwise_zeros (add : T -> T -> T) z a :
  (forall x, add x z = x) -> pointwise pad add a (zeros_like pad z a) = a.
Proof.
  intros Hz. apply tensor_eq; [reflexivity|].
  unfold pointwise, zeros_like. cbn [data tensor_of shape].
  rewrite (fit_id (repeat z _)) by apply repeat_length.
  rewrite <- tensor_len, map2_repeat_r by assumption.
  apply fit_id. now rewrite tensor_len.
Qed.

Lemma slice_to_shape k t y : slice_to pad k t = Ok y ->
  exists n s, shape t = n :: s /\ shape y = Nat.min k n :: s.
Proof.
  unfold slice_to. destruct (shape t) as [|n s] eqn:E; [discriminate|].
  intros [= <-]. now exists n, s.
Qed.

(** Tensors that agree on their first [i] sub-tensors agree on their
    first [j] for every [j <= i]. *)
Lemma slice_to_le i j t u :
  j <= i -> slice_to pad i t = slice_to pad i u ->
  slice_to pad j t = slice_to pad j u.
Proof.
  intros Hj. unfold slice_to.
  pose proof (tensor_len t) as Lt. pose proof (tensor_len u) as Lu.
  destruct (shape t) as [|n s], (shape u) as [|n' s']; try discriminate;
    [reflexivity|].
  intros H. apply Ok_inj in H. f_equal.
  assert (Hs : Nat.min i n :: s = Nat.min i n' :: s').
  { now apply (f_equal (@shape T)) in H. }
  injection Hs as Hm <-.
  apply (f_equal (@data T)) in H. cbn [data tensor_of] in H.
  simpl in Lt, Lu.
  rewrite !fit_id in H
    by (rewrite length_firstn; cbn [numel fold_right]; fold (numel s); nia).
  assert (Hm' : Nat.min j n = Nat.min j n') by lia.
  apply tensor_eq; cbn [shape data tensor_of]; [now rewrite Hm'|].
  rewrite <- Hm'. f_equal.
  assert (Hle : Nat.min j n * numel s <= Nat.min i n * numel s) by nia.
  transitivity (firstn (Nat.min j n * numel s)
                  (firstn (Nat.min i n * numel s) (data t))).
  - now rewrite firstn_firstn, (Nat.min_l _ _ Hle).
  - rewrite H, firstn_firstn. rewrite Hm in Hle.
    now rewrite (Nat.min_l _ _ Hle).
Qed.

End TensorFacts.

(** ** Running monadic code *)

Section Runs.
Context {S A B : Type}.

Lemma bind_ok (m : M S A) (f : A -> M S B) s b s' :
  bind m f s = Ok (b, s') <->
  exists a s1, m s = Ok (a, s1) /\ f a s1 = Ok (b, s').
Proof.
  unfold bind. split.
  - destruct (m s) as [[a s1]|e]; [|discriminate]. intros H. now exists a, s1.
  - intros (a & s1 & -> & H). exact H.
Qed.

Lemma lift_ok (x : result A) (s : S) a s' :
  lift x s = Ok (a, s') <-> x = Ok a /\ s' = s.
Proof.
  unfold lift. destruct x; split; try discriminate.
  - now intros [= -> ->].
  - now intros [[= ->] ->].
  - now intros [? _].
Qed.

Lemma ret_ok (a a' : A) (s s' : S) : ret a s = Ok (a', s') <-> a' = a /\ s' = s.
Proof. unfold ret. split; [now intros [= -> ->]|now intros [-> ->]]. Qed.

End Runs.

(** Decompose a successful run into the runs of its parts. *)
Ltac run_inv H :=
  match type of H with
  | bind _ _ _ = Ok (_, _) =>
      let a := fresh "a" in let s := fresh "s" in
      let H1 := fresh "R" in let H2 := fresh "R" in
      apply bind_ok in H; destruct H as (a & s & H1 & H2);
      run_inv H1; run_inv H2
  | lift _ _ = Ok (_, _) =>
      let E := fresh "E" in
      apply lift_ok in H; destruct H as [H E]; try subst
  | ret _ _ = Ok (_, _) =>
      let E := fresh "E" in
      apply ret_ok in H; destruct H as [H E]; try subst
  | _ => idtac
  end.

(** ** The stacks *)

Section Stacks.
Context {B : Backend}.
Variable training : bool.
Local Abbreviation tensor := (tensor T).

Lemma feeds_length layers x r outs r' :
  feeds training layers x r outs r' -> length outs = length layers.
Proof. induction 1; simpl; congruence. Qed.

Lemma feeds_pairwise_length encs layers x r outs r' :
  feeds_pairwise training encs layers x r outs r' ->
  length outs = Nat.min (length layers) (length encs).
Proof.
  induction 1; simpl in *; lia.
Qed.

Lemma last_cons {A} (l : list A) : forall y d, last (y :: l) d = last l y.
Proof.
  induction l as [|z l IH]; intros y d; [reflexivity|].
  change (last (y :: z :: l) d) with (last (z :: l) d).
  now rewrite !IH.
Qed.

Lemma encoder_loop_feeds layers : forall x acc r fin outs r',
  encoder_loop training layers x acc r = Ok (fin, outs, r') <->
  exists outs', feeds training layers x r outs' r' /\ outs = acc ++ outs' /\ fin = last outs' x.
Proof.
  induction layers as [|layer rest IH]; intros x acc r fin outs r'; simpl.
  - rewrite ret_ok. split.
    + intros [[= -> ->] ->]. exists []. rewrite app_nil_r. repeat split. constructor.
    + intros (outs' & F & -> & ->). inversion F; subst.
      now rewrite app_nil_r.
  - rewrite bind_ok. split.
    + intros (y & r1 & Hy & Hl). apply IH in Hl as (outs' & F & -> & ->).
      exists (y :: outs'). repeat split.
      * econstructor; eassumption.
      * now rewrite <- app_assoc.
      * symmetry; apply last_cons.
    + intros (outs' & F & -> & ->). inversion F; subst.
      do 2 eexists. split; [eassumption|]. apply IH.
      eexists. repeat split; [eassumption|now rewrite <- app_assoc|].
      apply last_cons.
Qed.

Lemma decoder_loop_feeds encs : forall layers x acc r fin outs r',
  decoder_loop training (combine encs layers) x acc r = Ok (fin, outs, r') <->
  exists outs', feeds_pairwise training encs layers x r outs' r' /\
                outs = acc ++ outs' /\ fin = last outs' x.
Proof.
  induction encs as [|enc encs IH]; intros layers x acc r fin outs r'.
  - simpl. rewrite ret_ok. split.
    + intros [[= -> ->] ->]. exists []. rewrite app_nil_r. repeat split. constructor.
    + intros (outs' & F & -> & ->). inversion F; subst; now rewrite app_nil_r.
  - destruct layers as [|layer rest]; simpl.
    + rewrite ret_ok. split.
      * intros [[= -> ->] ->]. exists []. rewrite app_nil_r. repeat split. constructor.
      * intros (outs' & F & -> & ->). inversion F; subst; now rewrite app_nil_r.
    + rewrite bind_ok. split.
      * intros (y & r1 & Hy & Hl). apply IH in Hl as (outs' & F & -> & ->).
        exists (y :: outs'). repeat split.
        -- econstructor; eassumption.
        -- now rewrite <- app_assoc.
        -- symmetry; apply last_cons.
      * intros (outs' & F & -> & ->). inversion F; subst.
        do 2 eexists. split; [eassumption|]. apply IH.
        eexists. repeat split; [eassumption|now rewrite <- app_assoc|].
        apply last_cons.
Qed.

Lemma TransformerLayerDecoder_forward_shape m enc x r y r' :
  TransformerLayerDecoder_forward training m enc x r = Ok (y, r') ->
  shape y = shape x.
Proof.
  unfold TransformerLayerDecoder_forward. cbv zeta. intros H. run_inv H.
  eapply view_shape; eassumption.
Qed.

Lemma TransformerLayer_forward_shape m x r y r' :
  TransformerLayer_forward training m x r = Ok (y, r') -> shape y = shape x.
Proof.
  unfold TransformerLayer_forward. cbv zeta. intros H. run_inv H.
  eapply view_shape; eassumption.
Qed.

Lemma feeds_pairwise_shapes encs layers x r outs r' :
  feeds_pairwise training encs layers x r outs r' ->
  Forall (fun y => shape y = shape x) outs.
Proof.
  induction 1; constructor.
  - eapply TransformerLayerDecoder_forward_shape; eassumption.
  - apply TransformerLayerDecoder_forward_shape in H.
    eapply Forall_impl; [|exact IHfeeds_pairwise]. simpl. congruence.
Qed.

(** C6. The encoder stack applies its N layers in order, each to the
    output of the previous one; a run returns exactly when every layer
    of that chain returns, and then it returns the list of all N
    per-layer outputs together with the final output, which is the
    last element of the list (the input itself when N = 0). *)
Theorem encoder_forward_feeds (m : TransformerEncoder) (x : tensor) r fin outs r' :
  TransformerEncoder_forward training m x r = Ok (fin, outs, r') <->
  feeds training (enc_layers m) x r outs r' /\
  length outs = length (enc_layers m) /\
  fin = last outs x.
Proof.
  unfold TransformerEncoder_forward. rewrite encoder_loop_feeds. split.
  - intros (outs' & F & -> & ->). simpl. repeat split; [assumption|].
    eapply feeds_length; eassumption.
  - intros (F & _ & ->). now exists outs.
Qed.

(** C4. The decoder stack applies layer i to encoder output i and the
    running decoder state, pairwise, until the shorter of the two lists
    ends; a run returns exactly when every layer of that chain returns,
    with min(N, M) per-layer outputs (N of them when M = N), each shaped
    like the decoder input, and the final output is the last of them. *)
Theorem decoder_forward_pairwise (m : TransformerDecoder) (encs : list tensor)
    (x : tensor) r fin outs r' :
  TransformerDecoder_forward training m encs x r = Ok (fin, outs, r') <->
  feeds_pairwise training encs (dec_layers m) x r outs r' /\
  length outs = Nat.min (length (dec_layers m)) (length encs) /\
  (length encs = length (dec_layers m) -> length outs = length (dec_layers m)) /\
  Forall (fun y => shape y = shape x) outs /\
  fin = last outs x.
Proof.
  unfold TransformerDecoder_forward. rewrite decoder_loop_feeds. split.
  - intros (outs' & F & -> & ->). simpl.
    pose proof (feeds_pairwise_length F) as L.
    repeat split; try assumption; [lia|].
    eapply feeds_pairwise_shapes; eassumption.
  - intros (F & _ & _ & _ & ->). now exists outs.
Qed.

Lemma decoder_loop_other_attention (f : TransformerLayerDecoder -> AttentionLayer)
    (layers : list TransformerLayerDecoder) :
  forall (encs : list tensor) (x : tensor) acc r,
    decoder_loop training
      (combine encs
         (map (fun l => MkTransformerLayerDecoder (tld_base l) (f l)) layers))
      x acc r =
    decoder_loop training (combine encs layers) x acc r.
Proof.
  induction layers as [|l rest IH]; intros [|enc encs] x acc r; try reflexivity.
  simpl. unfold bind.
  change (TransformerLayerDecoder_forward training
            (MkTransformerLayerDecoder (tld_base l) (f l)) enc x r)
    with (TransformerLayerDecoder_forward training l enc x r).
  destruct (TransformerLayerDecoder_forward training l enc x r) as [[y r1]|e];
    [apply IH|reflexivity].
Qed.

(** C10. The decoder layer never calls [decoder_attention]: two decoder
    layers that differ only in that module compute the same output (and
    leave the generator in the same state) on all inputs, both attention
    sublayers running the one [attention] module; so does a decoder
    stack whose layers' [decoder_attention] modules are all replaced. *)
Theorem decoder_attention_unused :
  (forall (base : TransformerLayer) (a a' : AttentionLayer)
          (encoder_input decoder_input : tensor) r,
     TransformerLayerDecoder_forward training
       (MkTransformerLayerDecoder base a) encoder_input decoder_input r =
     TransformerLayerDecoder_forward training
       (MkTransformerLayerDecoder base a') encoder_input decoder_input r) /\
  (forall (m : TransformerDecoder) (f : TransformerLayerDecoder -> AttentionLayer)
          (encs : list tensor) (x : tensor) r,
     TransformerDecoder_forward training
       (MkTransformerDecoder
          (map (fun l => MkTransformerLayerDecoder (tld_base l) (f l)) (dec_layers m)))
       encs x r =
     TransformerDecoder_forward training m encs x r).
Proof.
  split.
  - intros base a a' encoder_input decoder_input r. reflexivity.
  - intros m f encs x r. unfold TransformerDecoder_forward. simpl.
    apply decoder_loop_other_attention.
Qed.

End Stacks.

(** ** The residual sublayer *)

Section Residual.
Context {B : Backend}.
Local Abbreviation tensor := (tensor T).

Lemma SubLayer_forward_ok (m : SubLayer) (x : tensor) t r z r' :
  SubLayer_forward m x t r = Ok (z, r') <->
  exists n y, layer_norm_forward (layer_norm m) x = Ok n /\
              t n r = Ok (y, r') /\
              tensor_add zero add x y = Ok z.
Proof.
  unfold SubLayer_forward. split.
  - intros H. run_inv H. eauto.
  - intros (n & y & Hn & Hy & Hz).
    apply bind_ok. exists n, r. split; [now apply lift_ok|].
    apply bind_ok. exists y, r'. split; [assumption|]. now apply lift_ok.
Qed.

(** C5. When the normalisation of the input returns [n] and the
    transformation maps [n] to a tensor [y] shaped like the input, the
    residual sublayer returns exactly input + y, element by element,
    where y = transform(normalize(input)); normalisation is applied to
    the input before the transformation.  With an additive zero, a
    transformation that returns zeros gives back the input unchanged. *)
Theorem SubLayer_forward_residual (m : SubLayer) (x n y : tensor)
    (t : tensor -> M Rng tensor) r r' :
  layer_norm_forward (layer_norm m) x = Ok n ->
  t n r = Ok (y, r') ->
  shape y = shape x ->
  SubLayer_forward m x t r = Ok (pointwise zero add x y, r') /\
  ((forall a, add a zero = a) -> y = zeros_like zero zero x ->
   SubLayer_forward m x t r = Ok (x, r')).
Proof.
  intros Hn Hy Hs.
  assert (H : SubLayer_forward m x t r = Ok (pointwise zero add x y, r')).
  { apply SubLayer_forward_ok. exists n, y. repeat split; try assumption.
    now apply tensor_add_same. }
  split; [exact H|].
  intros Hz ->. rewrite H. now rewrite pointwise_zeros.
Qed.

End Residual.

(** ** The attention block *)

Section Attention.
Context {B : Backend}.
Variable training : bool.
Local Abbreviation tensor := (tensor T).

Section Calls.
Variable m : AttentionLayer.
Variables input_tensor keys_vector values_vector : tensor.
Variable mask : bool.

Lemma attention_loop_calls steps : forall index acc r outs r',
  attention_loop training m input_tensor keys_vector values_vector mask
    index steps acc r = Ok (outs, r') <->
  exists outs', calls training m input_tensor keys_vector values_vector mask index steps r outs' r' /\ outs = acc ++ outs'.
Proof.
  induction steps as [|step rest IH]; intros index acc r outs r'; simpl.
  - rewrite ret_ok. split.
    + intros [-> ->]. exists []. split; [constructor|now rewrite app_nil_r].
    + intros (outs' & C & ->). inversion C; subst. now rewrite app_nil_r.
  - rewrite bind_ok. split.
    + intros ([[q ks] vs] & r0 & Hk & H). apply lift_ok in Hk as [Hk ->].
      apply bind_ok in H as (out & r1 & Ho & H).
      apply IH in H as (outs' & C & ->).
      exists (out :: outs'). split; [|now rewrite <- app_assoc].
      econstructor; eassumption.
    + intros (outs' & C & ->). inversion C; subst.
      eexists (_, _, _), r. split; [apply lift_ok; split; [eassumption|reflexivity]|].
      apply bind_ok. do 2 eexists. split; [eassumption|].
      apply IH. eexists. split; [eassumption|]. now rewrite <- app_assoc.
Qed.

Lemma calls_length index steps r outs r' :
  calls training m input_tensor keys_vector values_vector mask index steps r outs r' -> length outs = length steps.
Proof. induction 1; simpl; congruence. Qed.

Lemma calls_nth index steps r outs r' :
  calls training m input_tensor keys_vector values_vector mask index steps r outs r' ->
  forall j input_step, nth_error steps j = Some input_step ->
  exists query keys values rj out rj',
    kernel_inputs input_tensor keys_vector values_vector mask (index + j) input_step
      = Ok (query, keys, values) /\
    mha_forward (al_attention m) training query keys values rj = Ok (out, rj') /\
    nth_error outs j = Some out.
Proof.
  induction 1 as [|index step rest r q ks vs out r1 outs r' Hk Ho C IH];
    intros j input_step Hj.
  - now destruct j.
  - destruct j as [|j]; simpl in Hj.
    + injection Hj as <-. rewrite Nat.add_0_r. now exists q, ks, vs, r, out, r1.
    + destruct (IH j input_step Hj) as (q' & ks' & vs' & rj & o & rj' & H1 & H2 & H3).
      exists q', ks', vs', rj, o, rj'. repeat split; try assumption.
      now rewrite Nat.add_succ_r.
Qed.

Lemma AttentionLayer_forward_calls r y r' :
  AttentionLayer_forward training m input_tensor keys_vector values_vector mask r
    = Ok (y, r') <->
  exists steps outs,
    unbind zero input_tensor = Ok steps /\
    calls training m input_tensor keys_vector values_vector mask 1 steps r outs r' /\
    stack zero outs = Ok y.
Proof.
  unfold AttentionLayer_forward. split.
  - intros H. run_inv H. apply attention_loop_calls in R1 as (outs & C & ->).
    now exists a, outs.
  - intros (steps & outs & Hu & C & Hs).
    apply bind_ok. exists steps, r. split; [now apply lift_ok|].
    apply bind_ok. exists outs, r'. split; [|now apply lift_ok].
    apply attention_loop_calls. now exists outs.
Qed.

End Calls.

(** Two loops over the same steps that hand the kernel the same
    arguments at their first [n] positions return the same first [n]
    outputs. *)
Lemma calls_agree m x k v k' v' mask steps :
  forall n index r outs r1 outs' r1',
  calls training m x k v mask index steps r outs r1 ->
  calls training m x k' v' mask index steps r outs' r1' ->
  (forall j step, j < n ->
     kernel_inputs x k v mask (index + j) step =
     kernel_inputs x k' v' mask (index + j) step) ->
  firstn n outs = firstn n outs'.
Proof.
  induction steps as [|step rest IH]; intros n index r outs r1 outs' r1' C C' Hk.
  - inversion C; inversion C'; reflexivity.
  - inversion C; subst. inversion C'; subst.
    destruct n as [|n]; [reflexivity|]. simpl.
    assert (E := Hk 0 step ltac:(lia)). rewrite Nat.add_0_r in E.
    match goal with
    | H1 : kernel_inputs x k v _ _ _ = Ok _,
      H2 : kernel_inputs x k' v' _ _ _ = Ok _ |- _ =>
        rewrite E in H1; rewrite H1 in H2; injection H2 as <- <- <-
    end.
    match goal with
    | H1 : mha_forward _ _ ?q ?ks ?vs r = Ok (?o, _),
      H2 : mha_forward _ _ ?q ?ks ?vs r = Ok (?o', _) |- _ =>
        rewrite H1 in H2; injection H2 as <- <-
    end.
    f_equal. eapply IH; try eassumption.
    intros j s Hj. specialize (Hk (S j) s ltac:(lia)).
    now rewrite Nat.add_succ_r in Hk.
Qed.

(** Without a mask every position is handed the keys and values up to
    the length of the query sequence. *)
Lemma kernel_inputs_unmasked (x k v : tensor) index step n :
  shape0 x = Ok n ->
  kernel_inputs x k v false index step =
  rbind (slice_to zero n k) (fun keys =>
  rbind (slice_to zero n v) (fun values => Ok (step, keys, values))).
Proof. intros H. unfold kernel_inputs. now rewrite H. Qed.

Lemma kernel_inputs_masked (x k v : tensor) index step :
  kernel_inputs x k v true index step =
  rbind (slice_to zero index k) (fun keys =>
  rbind (slice_to zero index v) (fun values => Ok (step, keys, values))).
Proof. reflexivity. Qed.

End Attention.

Section Causal.
Context {B : Backend}.
Variable training : bool.
Local Abbreviation tensor := (tensor T).

Lemma nth_error_firstn_lt {A} (l : list A) : forall n j,
  j < n -> nth_error (firstn n l) j = nth_error l j.
Proof.
  induction l as [|a l IH]; intros [|n] [|j] H; simpl; try reflexivity; try lia.
  apply IH. lia.
Qed.

(** C2. In a causal call the output at position i (counted from 1) is
    the kernel's result for query i on the first i keys and the first i
    values, and it is the same for every other pair of key and value
    sequences that agree with these on their first i positions. *)
Theorem causal_attention_prefix (m : AttentionLayer) (x k v y : tensor) r r1 i :
  1 <= i ->
  AttentionLayer_forward training m x k v true r = Ok (y, r1) ->
  (forall q, row i x = Some q ->
     exists keys values ri out ri',
       slice_to zero i k = Ok keys /\
       slice_to zero i v = Ok values /\
       mha_forward (al_attention m) training q keys values ri = Ok (out, ri') /\
       row i y = Some out) /\
  (forall k' v' y' r1',
     slice_to zero i k = slice_to zero i k' ->
     slice_to zero i v = slice_to zero i v' ->
     AttentionLayer_forward training m x k' v' true r = Ok (y', r1') ->
     row i y' = row i y).
Proof.
  intros Hi H.
  apply AttentionLayer_forward_calls in H as (steps & outs & Hu & C & Hs).
  pose proof (unbind_stack _ _ Hs) as Hy.
  split.
  - intros q Hq. unfold row in Hq. rewrite Hu in Hq.
    destruct (calls_nth C _ Hq) as (q' & ks & vs & rj & out & rj' & Hk & Ho & Hn).
    replace (1 + (i - 1)) with i in Hk by lia.
    rewrite kernel_inputs_masked in Hk.
    destruct (slice_to zero i k) as [keys|]; [|discriminate].
    destruct (slice_to zero i v) as [values|]; [|discriminate].
    simpl in Hk. injection Hk as <- <- <-.
    exists keys, values, rj, out, rj'. repeat split; try assumption.
    unfold row. now rewrite Hy.
  - intros k' v' y' r1' Ek Ev H'.
    apply AttentionLayer_forward_calls in H' as (steps' & outs' & Hu' & C' & Hs').
    rewrite Hu in Hu'. injection Hu' as <-.
    pose proof (unbind_stack _ _ Hs') as Hy'.
    unfold row. rewrite Hy, Hy'.
    assert (F : firstn i outs = firstn i outs').
    { eapply calls_agree; try eassumption.
      intros j step Hj. rewrite !kernel_inputs_masked.
      rewrite (slice_to_le zero (i:=i) (j:=1 + j) k k' ltac:(lia) Ek).
      now rewrite (slice_to_le zero (i:=i) (j:=1 + j) v v' ltac:(lia) Ev). }
    rewrite <- (nth_error_firstn_lt outs (n:=i)) by lia.
    rewrite <- (nth_error_firstn_lt outs' (n:=i)) by lia.
    now rewrite F.
Qed.

End Causal.

(** ** Construction *)

Section Construction.
Context {B : Backend}.

(** C3, as the code has it.  Constructing an attention block compares
    nothing with the remainder of [in_features] by [num_heads]: it
    raises for [num_heads = 0] (the division), otherwise it hands
    the rounded-down quotient to the kernel's constructor and succeeds
    or fails as that constructor does. *)
Theorem AttentionLayer_init_floor (in_features num_heads : nat) (p : Q) (r : Rng) :
  AttentionLayer_init in_features num_heads p r =
  if num_heads =? 0 then Raise ZeroDivisionError
  else match attention_weights num_heads (in_features / num_heads)
               in_features in_features in_features p r with
       | Ok (w, r') =>
           Ok (MkAttentionLayer in_features (in_features / num_heads)
                 (MkMultiHeadAttention num_heads (in_features / num_heads)
                    in_features in_features in_features p w), r')
       | Raise e => Raise e
       end.
Proof.
  unfold AttentionLayer_init, floor_div, MultiHeadAttention_init, bind, lift, ret.
  destruct (num_heads =? 0); [reflexivity|].
  destruct (attention_weights _ _ _ _ _ _ r) as [[w r']|e]; reflexivity.
Qed.

Lemma get_list_broadcast (v num_layers : nat) :
  get_list (Scalar v) num_layers = get_list (PerLayer (repeat v num_layers)) num_layers.
Proof. simpl. now rewrite repeat_length, Nat.eqb_refl. Qed.

Lemma get_list_mismatched value num_layers :
  mismatched value num_layers -> get_list value num_layers = Raise ConfigurationError.
Proof.
  destruct value as [v|l]; simpl; [contradiction|].
  intros H. apply Nat.eqb_neq in H. now rewrite H.
Qed.

Lemma get_list_raise value num_layers e :
  get_list value num_layers = Raise e -> e = ConfigurationError.
Proof.
  destruct value as [v|l]; simpl; [discriminate|].
  destruct (_ =? _); [discriminate|congruence].
Qed.

(** C8. A scalar head count or feed-forward width constructs the same
    stack, from the same generator state, as the list that repeats it
    [num_layers] times; a list of any other length makes the
    constructor raise a configuration error. *)
Theorem stack_init_broadcast (num_layers in_features : nat) (dropout : Q) (r : Rng) :
  (forall (v : nat) (other : hyper),
     let listed := PerLayer (repeat v num_layers) in
     TransformerEncoder_init num_layers in_features (Scalar v) other dropout r =
     TransformerEncoder_init num_layers in_features listed other dropout r /\
     TransformerEncoder_init num_layers in_features other (Scalar v) dropout r =
     TransformerEncoder_init num_layers in_features other listed dropout r /\
     TransformerDecoder_init num_layers in_features (Scalar v) other dropout r =
     TransformerDecoder_init num_layers in_features listed other dropout r /\
     TransformerDecoder_init num_layers in_features other (Scalar v) dropout r =
     TransformerDecoder_init num_layers in_features other listed dropout r) /\
  (forall num_heads ffnhid : hyper,
     mismatched num_heads num_layers \/ mismatched ffnhid num_layers ->
     TransformerEncoder_init num_layers in_features num_heads ffnhid dropout r =
       Raise ConfigurationError /\
     TransformerDecoder_init num_layers in_features num_heads ffnhid dropout r =
       Raise ConfigurationError).
Proof.
  split.
  - intros v other listed. subst listed.
    unfold TransformerEncoder_init, TransformerDecoder_init.
    now rewrite <- !get_list_broadcast.
  - intros num_heads ffnhid H.
    unfold TransformerEncoder_init, TransformerDecoder_init, bind, lift.
    destruct (get_list ffnhid num_layers) as [lf|e] eqn:Ef.
    + destruct H as [H|H]; apply get_list_mismatched in H;
        [now rewrite H|congruence].
    + apply get_list_raise in Ef as ->. now split.
Qed.

End Construction.

(** ** Determinism *)

Section Determinism.
Context {B : Backend}.
Variable training : bool.
Local Abbreviation tensor := (tensor T).

Lemma det_ret {A} (a : A) : det (ret a).
Proof. intros r r'. reflexivity. Qed.

Lemma det_lift {A} (x : result A) : det (lift x).
Proof. intros r r'. unfold lift. now destruct x. Qed.

Lemma det_bind {A C} (m : M Rng A) (f : A -> M Rng C) :
  det m -> (forall a, det (f a)) -> det (bind m f).
Proof.
  intros Hm Hf r r'. unfold bind. specialize (Hm r r').
  destruct (m r) as [[a s]|e], (m r') as [[a' s']|e']; simpl in Hm;
    try discriminate; [|simpl; congruence].
  injection Hm as <-. apply Hf.
Qed.

Lemma det_Dropout_forward d (x : tensor) :
  dropout_off training (drop_p d) = true -> det (Dropout_forward training d x).
Proof. intros H. unfold Dropout_forward. rewrite H. apply det_ret. Qed.

Lemma det_PositionFeedForward_forward m (x : tensor) :
  dropout_off training (drop_p (ff_dropout m)) = true ->
  det (PositionFeedForward_forward training m x).
Proof.
  intros H. unfold PositionFeedForward_forward.
  apply det_bind; [apply det_lift|]. intros h.
  apply det_bind; [apply det_lift|]. intros o.
  now apply det_Dropout_forward.
Qed.

Lemma det_attention_loop m (x k v : tensor) mask steps :
  quiet_kernel training ->
  dropout_off training (mha_p (al_attention m)) = true ->
  forall index acc, det (attention_loop training m x k v mask index steps acc).
Proof.
  intros Hq Hp. induction steps as [|step rest IH]; intros index acc; simpl.
  - apply det_ret.
  - apply det_bind; [apply det_lift|]. intros [[q ks] vs].
    apply det_bind; [now apply Hq|]. intros out. apply IH.
Qed.

Lemma det_AttentionLayer_forward m (x k v : tensor) mask :
  quiet_kernel training ->
  dropout_off training (mha_p (al_attention m)) = true ->
  det (AttentionLayer_forward training m x k v mask).
Proof.
  intros Hq Hp. unfold AttentionLayer_forward.
  apply det_bind; [apply det_lift|]. intros steps.
  apply det_bind; [now apply det_attention_loop|]. intros outs.
  apply det_lift.
Qed.

Lemma det_SubLayer_forward m (x : tensor) t :
  (forall n, det (t n)) -> det (SubLayer_forward m x t).
Proof.
  intros Ht. unfold SubLayer_forward.
  apply det_bind; [apply det_lift|]. intros n.
  apply det_bind; [apply Ht|]. intros out. apply det_lift.
Qed.

Lemma det_TransformerLayer_forward l (x : tensor) :
  quiet_kernel training -> quiet_layer training l -> det (TransformerLayer_forward training l x).
Proof.
  intros Hq [Ha Hf]. unfold TransformerLayer_forward. cbv zeta.
  apply det_bind; [apply det_lift|]. intros s0.
  apply det_bind.
  { apply det_SubLayer_forward. intros n. now apply det_AttentionLayer_forward. }
  intros att. apply det_bind; [apply det_lift|]. intros s1.
  apply det_bind; [apply det_lift|]. intros flat.
  apply det_bind.
  { apply det_SubLayer_forward. intros n. now apply det_PositionFeedForward_forward. }
  intros ff. apply det_lift.
Qed.

Lemma det_TransformerLayerDecoder_forward l (enc x : tensor) :
  quiet_kernel training -> quiet_layer training (tld_base l) ->
  det (TransformerLayerDecoder_forward training l enc x).
Proof.
  intros Hq [Ha Hf]. unfold TransformerLayerDecoder_forward. cbv zeta.
  apply det_bind; [apply det_lift|]. intros s0.
  apply det_bind.
  { apply det_SubLayer_forward. intros n. now apply det_AttentionLayer_forward. }
  intros att. apply det_bind; [apply det_lift|]. intros s1.
  apply det_bind.
  { apply det_SubLayer_forward. intros n. now apply det_AttentionLayer_forward. }
  intros datt. apply det_bind; [apply det_lift|]. intros s2.
  apply det_bind; [apply det_lift|]. intros flat.
  apply det_bind.
  { apply det_SubLayer_forward. intros n. now apply det_PositionFeedForward_forward. }
  intros ff. apply det_lift.
Qed.

Lemma det_encoder_loop layers :
  quiet_kernel training -> Forall (quiet_layer training) layers ->
  forall (x : tensor) acc, det (encoder_loop training layers x acc).
Proof.
  intros Hq. induction 1 as [|l rest Hl _ IH]; intros x acc; simpl.
  - apply det_ret.
  - apply det_bind; [now apply det_TransformerLayer_forward|]. intros y. apply IH.
Qed.

Lemma det_decoder_loop (pairs : list (tensor * TransformerLayerDecoder)) :
  quiet_kernel training -> Forall (fun p => quiet_layer training (tld_base (snd p))) pairs ->
  forall (x : tensor) acc, det (decoder_loop training pairs x acc).
Proof.
  intros Hq. induction 1 as [|[enc l] rest Hl _ IH]; intros x acc; simpl.
  - apply det_ret.
  - apply det_bind; [now apply det_TransformerLayerDecoder_forward|].
    intros y. apply IH.
Qed.

End Determinism.

(** ** What the constructors build *)

Section Built.
Context {B : Backend}.

Lemma floor_div_ok a b q : floor_div a b = Ok q -> b <> 0 /\ q = a / b.
Proof.
  unfold floor_div. destruct (Nat.eqb_spec b 0); [discriminate|].
  now intros [= <-].
Qed.

Lemma Dropout_init_ok p r d r' : Dropout_init p r = Ok (d, r') -> d = MkDropout p.
Proof.
  unfold Dropout_init. destruct (_ && _); [|discriminate].
  now intros [= <- _].
Qed.

Lemma TransformerLayer_init_ok in_features num_heads ffnhid p r l r' :
  TransformerLayer_init in_features num_heads ffnhid p r = Ok (l, r') ->
  num_heads <> 0 /\
  exists wa w1 w2 n0 n1, l = layer_with in_features num_heads ffnhid p wa w1 w2 n0 n1.
Proof.
  unfold TransformerLayer_init, AttentionLayer_init, PositionFeedForward_init,
    SubLayer_init, MultiHeadAttention_init, Linear_init, LayerNorm_init.
  intros H. run_inv H.
  repeat match goal with
         | H : floor_div _ _ = Ok _ |- _ => apply floor_div_ok in H as [? ->]
         | H : Dropout_init _ _ = Ok _ |- _ => apply Dropout_init_ok in H as ->
         end.
  split; [assumption|]. unfold layer_with. cbv zeta. eauto 10.
Qed.

Lemma TransformerLayerDecoder_init_ok in_features num_heads ffnhid p r l r' :
  TransformerLayerDecoder_init in_features num_heads ffnhid p r = Ok (l, r') ->
  exists wa w1 w2 n0 n1 s2,
    tld_base l =
    let base := layer_with in_features num_heads ffnhid p wa w1 w2 n0 n1 in
    MkTransformerLayer (tl_dim base) (tl_nhid base) (tl_attention base)
      (tl_linear base) (tl_sublayers base ++ [s2]).
Proof.
  unfold TransformerLayerDecoder_init. intros H.
  apply bind_ok in H as (base & r1 & Hb & H).
  apply TransformerLayer_init_ok in Hb as (_ & wa & w1 & w2 & n0 & n1 & ->).
  apply bind_ok in H as (da & r2 & _ & H).
  apply bind_ok in H as (s2 & r3 & _ & H).
  apply ret_ok in H as [-> _]. simpl. eauto 10.
Qed.

Lemma mapM_Forall {S X Y} (f : X -> M S Y) (P : Y -> Prop) :
  (forall x s y s', f x s = Ok (y, s') -> P y) ->
  forall l s ys s', mapM f l s = Ok (ys, s') -> Forall P ys.
Proof.
  intros Hf. induction l as [|x l IH]; simpl; intros s ys s' H.
  - apply ret_ok in H as [-> _]. constructor.
  - apply bind_ok in H as (y & s1 & Hy & H).
    apply bind_ok in H as (ys' & s2 & Hys & H).
    apply ret_ok in H as [-> _]. constructor; eauto.
Qed.

Lemma mapM_length {S X Y} (f : X -> M S Y) :
  forall l s ys s', mapM f l s = Ok (ys, s') -> length ys = length l.
Proof.
  induction l as [|x l IH]; simpl; intros s ys s' H.
  - now apply ret_ok in H as [-> _].
  - apply bind_ok in H as (y & s1 & Hy & H).
    apply bind_ok in H as (ys' & s2 & Hys & H).
    apply ret_ok in H as [-> _]. simpl. f_equal. eauto.
Qed.

End Built.

Section DeterminismOfStacks.
Context {B : Backend}.
Variable training : bool.
Local Abbreviation tensor := (tensor T).

Lemma quiet_layer_with d h f p wa w1 w2 n0 n1 :
  dropout_off training p = true ->
  quiet_layer training (layer_with d h f p wa w1 w2 n0 n1).
Proof. intros H. split; exact H. Qed.

(** C9. With dropout disabled (inference mode, or rate 0) and a kernel
    that is deterministic once its own dropout is disabled, the forward
    passes of every constructed encoder and decoder stack are
    deterministic: the outcome on given inputs is the same whatever the
    state of the random generator. *)
Theorem forward_deterministic (dropout : Q) :
  quiet_kernel training ->
  dropout_off training dropout = true ->
  (forall num_layers in_features num_heads ffnhid r0 m r1,
     TransformerEncoder_init num_layers in_features num_heads ffnhid dropout r0
       = Ok (m, r1) ->
     forall (x : tensor) r r',
       value (TransformerEncoder_forward training m x r) =
       value (TransformerEncoder_forward training m x r')) /\
  (forall num_layers in_features num_heads ffnhid r0 m r1,
     TransformerDecoder_init num_layers in_features num_heads ffnhid dropout r0
       = Ok (m, r1) ->
     forall (encs : list tensor) (x : tensor) r r',
       value (TransformerDecoder_forward training m encs x r) =
       value (TransformerDecoder_forward training m encs x r')).
Proof.
  intros Hq Hp. split.
  - intros n d nh ff r0 m r1 H x.
    unfold TransformerEncoder_init in H.
    apply bind_ok in H as (lf & s1 & _ & H).
    apply bind_ok in H as (lh & s2 & _ & H).
    apply bind_ok in H as (layers & s3 & Hl & H).
    apply ret_ok in H as [-> _]. simpl.
    apply det_encoder_loop; [assumption|].
    eapply mapM_Forall; [|exact Hl]. simpl.
    intros i s l s' Hi.
    apply bind_ok in Hi as (f & s4 & _ & Hi).
    apply bind_ok in Hi as (h & s5 & _ & Hi).
    apply TransformerLayer_init_ok in Hi as (_ & wa & w1 & w2 & n0 & n1 & ->).
    now apply quiet_layer_with.
  - intros n d nh ff r0 m r1 H encs x.
    unfold TransformerDecoder_init in H.
    apply bind_ok in H as (lf & s1 & _ & H).
    apply bind_ok in H as (lh & s2 & _ & H).
    apply bind_ok in H as (layers & s3 & Hl & H).
    apply ret_ok in H as [-> _]. simpl.
    apply det_decoder_loop; [assumption|].
    assert (HF : Forall (fun l => quiet_layer training (tld_base l)) layers).
    { eapply mapM_Forall; [|exact Hl]. simpl.
      intros i s l s' Hi.
      apply bind_ok in Hi as (f & s4 & _ & Hi).
      apply bind_ok in Hi as (h & s5 & _ & Hi).
      apply TransformerLayerDecoder_init_ok in Hi
        as (wa & w1 & w2 & n0 & n1 & s2' & ->).
      split; exact Hp. }
    clear Hl. revert encs.
    induction HF as [|l rest Hl _ IH]; intros [|enc encs]; simpl; constructor.
    + exact Hl.
    + apply IH.
Qed.

End DeterminismOfStacks.

(** ** Shapes through the encoder layer *)

Section Shapes.
Context {B : Backend}.
Unset Implicit Arguments.
Variable training : bool.
Local Abbreviation tensor := (tensor T).

Hypothesis contract : shape_contract training.

Lemma unbind_ok (x : tensor) n s :
  shape x = n :: s ->
  exists steps, unbind zero x = Ok steps /\ length steps = n /\
                Forall (fun t => shape t = s) steps.
Proof.
  intros H. unfold unbind. rewrite H. eexists. split; [reflexivity|].
  rewrite length_map, chunks_length. split; [reflexivity|].
  apply Forall_forall. intros t Ht. apply in_map_iff in Ht as (d & <- & _).
  reflexivity.
Qed.

Lemma stack_ok (ts : list tensor) s :
  ts <> [] -> Forall (fun t => shape t = s) ts ->
  exists y, stack zero ts = Ok y /\ shape y = length ts :: s.
Proof.
  intros Hne HF. destruct ts as [|t rest]; [contradiction|].
  inversion HF as [|? ? Ht Hrest]; subst. unfold stack.
  replace (forallb _ rest) with true.
  - eexists. split; reflexivity.
  - symmetry. apply forallb_forall. intros u Hu. apply shape_eqb_eq.
    rewrite Forall_forall in Hrest. now apply Hrest.
Qed.

Lemma slice_to_ok (k : tensor) i n s :
  shape k = n :: s ->
  exists ks, slice_to zero i k = Ok ks /\ shape ks = Nat.min i n :: s.
Proof. intros H. unfold slice_to. rewrite H. eexists. split; reflexivity. Qed.

Lemma calls_total (m : AttentionLayer) (x k v : tensor) mask sl kl bs steps :
  shape x = [sl; bs; mha_query_dim (al_attention m)] ->
  shape k = [kl; bs; mha_keys_dim (al_attention m)] ->
  shape v = [kl; bs; mha_values_dim (al_attention m)] ->
  Forall (fun t => shape t = [bs; mha_query_dim (al_attention m)]) steps ->
  forall index r,
  exists outs r',
    calls training m x k v mask index steps r outs r' /\
    Forall (fun t => shape t =
              [bs; mha_num_heads (al_attention m) * mha_nhid (al_attention m)]) outs.
Proof.
  intros Hx Hk Hv. induction 1 as [|step rest Hs _ IH]; intros index r.
  - exists [], r. split; constructor.
  - set (mi := if mask then index else sl).
    destruct (slice_to_ok k mi _ _ Hk) as (ks & Eks & Sks).
    destruct (slice_to_ok v mi _ _ Hv) as (vs & Evs & Svs).
    destruct (kernel_shape contract (al_attention m) step ks vs _ _ r Hs Sks Svs)
      as (out & r1 & Eo & So).
    destruct (IH (S index) r1) as (outs & r' & C & F).
    exists (out :: outs), r'. split; [|now constructor].
    econstructor; [|exact Eo|exact C].
    unfold kernel_inputs, shape0. rewrite Hx.
    destruct mask; simpl; subst mi; now rewrite Eks, Evs.
Qed.

(** The attention block returns one output per query step. *)
Lemma AttentionLayer_forward_total (m : AttentionLayer) (x k v : tensor)
    mask sl kl bs r :
  0 < sl ->
  shape x = [sl; bs; mha_query_dim (al_attention m)] ->
  shape k = [kl; bs; mha_keys_dim (al_attention m)] ->
  shape v = [kl; bs; mha_values_dim (al_attention m)] ->
  exists y r',
    AttentionLayer_forward training m x k v mask r = Ok (y, r') /\
    shape y = [sl; bs; mha_num_heads (al_attention m) * mha_nhid (al_attention m)].
Proof.
  intros Hsl Hx Hk Hv.
  destruct (unbind_ok x _ _ Hx) as (steps & Eu & Ls & Fs).
  destruct (calls_total m x k v mask _ _ _ _ Hx Hk Hv Fs 1 r) as (outs & r' & C & Fo).
  pose proof (calls_length C) as Lo.
  destruct (fun H => stack_ok outs _ H Fo) as (y & Ey & Sy).
  { destruct outs; [simpl in Lo; lia|discriminate]. }
  exists y, r'. split.
  - apply AttentionLayer_forward_calls. now exists steps, outs.
  - rewrite Sy. congruence.
Qed.

Lemma SubLayer_forward_total (m : SubLayer) (x : tensor) t f s r :
  ln_features (layer_norm m) = [f] ->
  shape x = s ++ [f] ->
  (forall n r, shape n = shape x ->
     exists y r', t n r = Ok (y, r') /\ shape y = shape x) ->
  exists z r', SubLayer_forward m x t r = Ok (z, r') /\ shape z = shape x.
Proof.
  intros Hf Hx Ht.
  destruct (layer_norm_shape contract (layer_norm m) x f s Hf Hx) as (n & En & Sn).
  destruct (Ht n r Sn) as (y & r' & Ey & Sy).
  exists (pointwise zero add x y), r'. split; [|reflexivity].
  apply SubLayer_forward_ok. exists n, y. repeat split; try assumption.
  now apply tensor_add_same.
Qed.

Lemma Dropout_forward_total d (x : tensor) r :
  exists y r', Dropout_forward training d x r = Ok (y, r') /\ shape y = shape x.
Proof.
  unfold Dropout_forward. destruct (dropout_off _ _).
  - now exists x, r.
  - pose proof (mask_shape contract (drop_p d) x r) as H.
    destruct (bernoulli_mask (drop_p d) x r) as [y r']. now exists y, r'.
Qed.

Lemma PositionFeedForward_forward_total (m : PositionFeedForward) (x : tensor) s r :
  lin_out_features (ff_linear1 m) = lin_in_features (ff_linear2 m) ->
  shape x = s ++ [lin_in_features (ff_linear1 m)] ->
  exists y r', PositionFeedForward_forward training m x r = Ok (y, r') /\
               shape y = s ++ [lin_out_features (ff_linear2 m)].
Proof.
  intros Hmid Hx.
  destruct (linear_shape contract (ff_linear1 m) x s Hx) as (h & Eh & Sh).
  assert (Sr : shape (ReLU_forward h) = s ++ [lin_in_features (ff_linear2 m)]).
  { unfold ReLU_forward, tmap. simpl. congruence. }
  destruct (linear_shape contract (ff_linear2 m) _ s Sr) as (o & Eo & So).
  destruct (Dropout_forward_total (ff_dropout m) o r) as (y & r' & Ey & Sy).
  exists y, r'. split; [|congruence].
  unfold PositionFeedForward_forward.
  apply bind_ok. exists h, r. split; [now apply lift_ok|].
  apply bind_ok. exists o, r. split; [now apply lift_ok|]. exact Ey.
Qed.

(** C7. The encoder layer preserves the shape of its input: whenever it
    returns, for any configuration and any input tensor, the output has
    exactly the input's shape (the attention sublayer's result is
    flattened by [view(-1, dim)], fed through the feed-forward sublayer
    and reshaped back by [view(shape)]). *)
Theorem encoder_layer_preserves_shape :
  forall (l : TransformerLayer) (x y : tensor) r r',
    TransformerLayer_forward training l x r = Ok (y, r') -> shape y = shape x.
Proof.
  intros l x y r r' H. unfold TransformerLayer_forward in H. cbv zeta in H.
  apply bind_ok in H as (s0 & t0 & _ & H).
  apply bind_ok in H as (att & t1 & _ & H).
  apply bind_ok in H as (s1 & t2 & _ & H).
  apply bind_ok in H as (flat & t3 & _ & H).
  apply bind_ok in H as (ff & t4 & _ & H).
  apply lift_ok in H as [H _].
  exact (view_shape zero (size x) ff H).
Qed.

End Shapes.

(** ** Edge behaviour of the attention block *)

Section AttentionEdges.
Context {B : Backend}.
Variable training : bool.
Local Abbreviation tensor := (tensor T).

Lemma slice_to_all (x : tensor) n s k :
  shape x = n :: s -> n <= k -> slice_to zero k x = Ok x.
Proof.
  intros Hx Hk. unfold slice_to. rewrite Hx. f_equal.
  pose proof (tensor_len x) as L. rewrite Hx in L. simpl in L.
  apply tensor_eq; cbn [shape data tensor_of].
  - rewrite Hx. f_equal. lia.
  - replace (Nat.min k n) with n by lia.
    rewrite firstn_all2 by lia. apply fit_id. cbn [numel fold_right].
    fold (numel s). exact L.
Qed.

Lemma attention_loop_ext (m : AttentionLayer) (x k v k' v' : tensor) mask :
  (forall index step,
     kernel_inputs x k v mask index step = kernel_inputs x k' v' mask index step) ->
  forall steps index acc r,
    attention_loop training m x k v mask index steps acc r =
    attention_loop training m x k' v' mask index steps acc r.
Proof.
  intros E. induction steps as [|step rest IH]; intros index acc r; [reflexivity|].
  simpl. unfold bind. rewrite E.
  destruct (lift (kernel_inputs x k' v' mask index step) r) as [[[[q ks] vs] r0]|e];
    [|reflexivity].
  destruct (mha_forward (al_attention m) training q ks vs r0) as [[out r1]|e];
    [apply IH|reflexivity].
Qed.

(** X1. Without a mask, the keys and values beyond the length of the
    query sequence never reach the kernel: two calls whose keys, and
    whose values, agree up to that length have the same outcome. *)
Theorem unmasked_attention_ignores_late_keys (m : AttentionLayer)
    (x k v k' v' : tensor) n r :
  shape0 x = Ok n ->
  slice_to zero n k = slice_to zero n k' ->
  slice_to zero n v = slice_to zero n v' ->
  AttentionLayer_forward training m x k v false r =
  AttentionLayer_forward training m x k' v' false r.
Proof.
  intros Hn Ek Ev. unfold AttentionLayer_forward, bind.
  destruct (lift (unbind zero x) r) as [[steps r0]|e]; [|reflexivity].
  rewrite (@attention_loop_ext m x k v k' v' false); [reflexivity|].
  intros index step. rewrite !(kernel_inputs_unmasked _ _ _ _ _ Hn).
  now rewrite Ek, Ev.
Qed.

(** X2. Without a mask, keys and values that are no longer than the
    query sequence are handed to the kernel whole at every position (so
    in self-attention every position sees the full sequence): row i of
    the output is the kernel's result for query i on all keys and all
    values. *)
Theorem unmasked_attention_full_when_short (m : AttentionLayer)
    (x k v y : tensor) sl s kl sk vl sv r r' i :
  shape x = sl :: s -> shape k = kl :: sk -> shape v = vl :: sv ->
  kl <= sl -> vl <= sl ->
  1 <= i ->
  AttentionLayer_forward training m x k v false r = Ok (y, r') ->
  forall q, row i x = Some q ->
    exists ri out ri',
      mha_forward (al_attention m) training q k v ri = Ok (out, ri') /\
      row i y = Some out.
Proof.
  intros Hx Hk Hv Lk Lv Hi H q Hq.
  apply AttentionLayer_forward_calls in H as (steps & outs & Hu & C & Hs).
  pose proof (unbind_stack _ _ Hs) as Hy.
  unfold row in Hq. rewrite Hu in Hq.
  destruct (calls_nth C _ Hq) as (q' & ks & vs & rj & out & rj' & Hki & Ho & Hn).
  assert (H0 : shape0 x = Ok sl) by (unfold shape0; now rewrite Hx).
  rewrite (kernel_inputs_unmasked _ _ _ _ _ H0) in Hki.
  rewrite (@slice_to_all k kl sk sl Hk Lk), (@slice_to_all v vl sv sl Hv Lv) in Hki.
  simpl in Hki. injection Hki as <- <- <-.
  exists rj, out, rj'. split; [exact Ho|]. unfold row. now rewrite Hy.
Qed.

(** X3. The attention block has one output row per query step and needs
    at least one: when it returns, the output's leading dimension is the
    (positive) length of the query sequence. *)
Theorem attention_output_rows (m : AttentionLayer) (x k v y : tensor) mask r r' :
  AttentionLayer_forward training m x k v mask r = Ok (y, r') ->
  exists sl s s', shape x = sl :: s /\ shape y = sl :: s' /\ 0 < sl.
Proof.
  intros H.
  apply AttentionLayer_forward_calls in H as (steps & outs & Hu & C & Hs).
  pose proof (calls_length C) as L. pose proof (stack_shape _ _ Hs) as Sy.
  unfold unbind in Hu. destruct (shape x) as [|sl s] eqn:Hx; [discriminate|].
  injection Hu as <-. rewrite length_map, chunks_length in L.
  exists sl, s, (shape (hd y outs)). repeat split; [congruence|].
  destruct outs; [discriminate Hs|]. simpl in L. lia.
Qed.

(** X4. A query that is a 0-d tensor makes the attention block raise a
    TypeError, and an empty query sequence a RuntimeError ([torch.stack]
    of no tensors), in both cases before the kernel is called. *)
Theorem attention_degenerate_query (m : AttentionLayer) (x k v : tensor) mask r :
  (shape x = [] ->
   AttentionLayer_forward training m x k v mask r = Raise TypeError) /\
  (forall s, shape x = 0 :: s ->
   AttentionLayer_forward training m x k v mask r = Raise RuntimeError).
Proof.
  unfold AttentionLayer_forward, bind, lift, unbind. split.
  - intros ->. reflexivity.
  - intros s ->. reflexivity.
Qed.

End AttentionEdges.

(** ** What construction accepts and builds *)

Section Constructed.
Context {B : Backend}.

Lemma TransformerLayerDecoder_init_built in_features num_heads ffnhid p r l r' :
  TransformerLayerDecoder_init in_features num_heads ffnhid p r = Ok (l, r') ->
  num_heads <> 0 /\
  exists wa w1 w2 n0 n1 wd n2,
    l = decoder_layer_with in_features num_heads ffnhid p wa w1 w2 n0 n1 wd n2.
Proof.
  unfold TransformerLayerDecoder_init. intros H.
  apply bind_ok in H as (base & r1 & Hb & H).
  apply TransformerLayer_init_ok in Hb as (Hh & wa & w1 & w2 & n0 & n1 & ->).
  apply bind_ok in H as (da & r2 & Hda & H).
  apply bind_ok in H as (s2 & r3 & Hs2 & H).
  apply ret_ok in H as [-> _]. split; [exact Hh|].
  unfold AttentionLayer_init, MultiHeadAttention_init in Hda. run_inv Hda.
  match goal with
  | H : floor_div _ _ = Ok _ |- _ => apply floor_div_ok in H as [_ ->]
  end.
  unfold SubLayer_init, LayerNorm_init in Hs2. run_inv Hs2.
  unfold decoder_layer_with. cbv zeta. eauto 10.
Qed.

Lemma mapM_nth {S X Y} (f : X -> M S Y) :
  forall l s ys s', mapM f l s = Ok (ys, s') ->
  forall i y, nth_error ys i = Some y ->
  exists x s1 s2, nth_error l i = Some x /\ f x s1 = Ok (y, s2).
Proof.
  induction l as [|x l IH]; simpl; intros s ys s' H i y Hi.
  - apply ret_ok in H as [-> _]. now destruct i.
  - apply bind_ok in H as (y0 & s1 & Hy & H).
    apply bind_ok in H as (ys' & s2 & Hys & H).
    apply ret_ok in H as [-> _]. destruct i as [|i]; simpl in Hi.
    + injection Hi as <-. now exists x, s, s1.
    + eapply IH; eassumption.
Qed.

Lemma nth_error_seq0 n i x : nth_error (seq 0 n) i = Some x -> x = i /\ i < n.
Proof.
  intros H. assert (L : i < n).
  { rewrite <- (length_seq n 0). apply nth_error_Some. congruence. }
  split; [|exact L]. apply (nth_error_nth _ _ 0) in H.
  rewrite seq_nth in H by exact L. now subst.
Qed.

Lemma index_ok {A} (l : list A) i a : index l i = Ok a <-> nth_error l i = Some a.
Proof.
  unfold index. destruct (nth_error l i); split; try discriminate; congruence.
Qed.

(** X5. A constructed encoder stack has exactly [num_layers] layers, and
    layer i is the layer of width [in_features] with the i-th head count
    (which is not zero), the i-th feed-forward width and the stack's
    dropout rate. *)
Theorem encoder_init_layers num_layers in_features num_heads ffnhid dropout r m r' :
  TransformerEncoder_init num_layers in_features num_heads ffnhid dropout r
    = Ok (m, r') ->
  exists heads widths,
    get_list num_heads num_layers = Ok heads /\
    get_list ffnhid num_layers = Ok widths /\
    length (enc_layers m) = num_layers /\
    forall i l, nth_error (enc_layers m) i = Some l ->
      exists h f wa w1 w2 n0 n1,
        nth_error heads i = Some h /\ nth_error widths i = Some f /\ h <> 0 /\
        l = layer_with in_features h f dropout wa w1 w2 n0 n1.
Proof.
  unfold TransformerEncoder_init. intros H.
  apply bind_ok in H as (lf & s1 & Hf & H). apply lift_ok in Hf as [Hf ->].
  apply bind_ok in H as (lh & s2 & Hh & H). apply lift_ok in Hh as [Hh ->].
  apply bind_ok in H as (layers & s3 & Hl & H).
  apply ret_ok in H as [-> _]. exists lh, lf. simpl.
  repeat split; try assumption.
  - rewrite (mapM_length _ _ _ Hl). apply length_seq.
  - intros i l Hi.
    edestruct @mapM_nth as (x & t1 & t2 & Hx & Hfx); [exact Hl|exact Hi|].
    apply nth_error_seq0 in Hx as [-> _].
    apply bind_ok in Hfx as (f & t3 & Ef & Hfx). apply lift_ok in Ef as [Ef ->].
    apply bind_ok in Hfx as (h & t4 & Eh & Hfx). apply lift_ok in Eh as [Eh ->].
    apply TransformerLayer_init_ok in Hfx as (Hnz & wa & w1 & w2 & n0 & n1 & ->).
    apply index_ok in Ef, Eh. exists h, f, wa, w1, w2, n0, n1. auto.
Qed.

(** X6. A constructed decoder stack has exactly [num_layers] layers;
    layer i has the i-th head count and feed-forward width, three
    residual sublayers, and a [decoder_attention] module configured like
    its [attention] module. *)
Theorem decoder_init_layers num_layers in_features num_heads ffnhid dropout r m r' :
  TransformerDecoder_init num_layers in_features num_heads ffnhid dropout r
    = Ok (m, r') ->
  exists heads widths,
    get_list num_heads num_layers = Ok heads /\
    get_list ffnhid num_layers = Ok widths /\
    length (dec_layers m) = num_layers /\
    forall i l, nth_error (dec_layers m) i = Some l ->
      exists h f wa w1 w2 n0 n1 wd n2,
        nth_error heads i = Some h /\ nth_error widths i = Some f /\ h <> 0 /\
        l = decoder_layer_with in_features h f dropout wa w1 w2 n0 n1 wd n2 /\
        length (tl_sublayers (tld_base l)) = 3 /\
        mha_num_heads (al_attention (decoder_attention l)) =
          mha_num_heads (al_attention (tl_attention (tld_base l))).
Proof.
  unfold TransformerDecoder_init. intros H.
  apply bind_ok in H as (lf & s1 & Hf & H). apply lift_ok in Hf as [Hf ->].
  apply bind_ok in H as (lh & s2 & Hh & H). apply lift_ok in Hh as [Hh ->].
  apply bind_ok in H as (layers & s3 & Hl & H).
  apply ret_ok in H as [-> _]. exists lh, lf. simpl.
  repeat split; try assumption.
  - rewrite (mapM_length _ _ _ Hl). apply length_seq.
  - intros i l Hi.
    edestruct @mapM_nth as (x & t1 & t2 & Hx & Hfx); [exact Hl|exact Hi|].
    apply nth_error_seq0 in Hx as [-> _].
    apply bind_ok in Hfx as (f & t3 & Ef & Hfx). apply lift_ok in Ef as [Ef ->].
    apply bind_ok in Hfx as (h & t4 & Eh & Hfx). apply lift_ok in Eh as [Eh ->].
    apply TransformerLayerDecoder_init_built in Hfx
      as (Hnz & wa & w1 & w2 & n0 & n1 & wd & n2 & ->).
    apply index_ok in Ef, Eh. exists h, f, wa, w1, w2, n0, n1, wd, n2.
    repeat split; auto.
Qed.

Lemma get_list_length value num_layers l :
  get_list value num_layers = Ok l -> length l = num_layers.
Proof.
  destruct value as [v|l0]; simpl.
  - intros [= <-]. apply repeat_length.
  - destruct (Nat.eqb_spec (length l0) num_layers); [|discriminate].
    now intros [= <-].
Qed.

Lemma TransformerLayer_init_zero_heads in_features ffnhid p (r : Rng) :
  TransformerLayer_init in_features 0 ffnhid p r = Raise ZeroDivisionError.
Proof. reflexivity. Qed.

(** X7. A head count of zero given as a scalar makes the construction of
    a stack with at least one layer raise ZeroDivisionError, from the
    integer division of the first layer and before any weight is drawn. *)
Theorem zero_heads_raise num_layers in_features ffnhid dropout (r : Rng) :
  0 < num_layers -> ~ mismatched ffnhid num_layers ->
  TransformerEncoder_init num_layers in_features (Scalar 0) ffnhid dropout r =
    Raise ZeroDivisionError /\
  TransformerDecoder_init num_layers in_features (Scalar 0) ffnhid dropout r =
    Raise ZeroDivisionError.
Proof.
  intros Hn Hm.
  assert (exists lf f, get_list ffnhid num_layers = Ok lf /\ index lf 0 = Ok f)
    as (lf & f & Hlf & Hf).
  { destruct (get_list ffnhid num_layers) as [lf|e] eqn:E.
    - pose proof (@get_list_length _ _ _ E) as L.
      destruct lf as [|f lf]; [simpl in L; lia|]. now exists (f :: lf), f.
    - destruct ffnhid as [v|l]; simpl in E; [discriminate|].
      simpl in Hm. destruct (Nat.eqb_spec (length l) num_layers);
        [discriminate|contradiction]. }
  destruct num_layers as [|n]; [lia|].
  unfold TransformerEncoder_init, TransformerDecoder_init, bind, lift.
  rewrite Hlf. simpl. unfold bind, lift. rewrite Hf. simpl. split; reflexivity.
Qed.

(** X8. A dropout rate outside [0, 1] is refused by [nn.Dropout]: no
    feed-forward block, no layer and no stack with at least one layer is
    ever constructed with it. *)
Theorem dropout_rate_out_of_range (p : Q) :
  Qle_bool 0 p && Qle_bool p 1 = false ->
  (forall i o h r m r', PositionFeedForward_init i o h p r <> Ok (m, r')) /\
  (forall d h f r l r', TransformerLayer_init d h f p r <> Ok (l, r')) /\
  (forall n d nh ff r m r',
     0 < n -> TransformerEncoder_init n d nh ff p r <> Ok (m, r')) /\
  (forall n d nh ff r m r',
     0 < n -> TransformerDecoder_init n d nh ff p r <> Ok (m, r')).
Proof.
  intros Hp.
  assert (HD : forall r d r', Dropout_init p r <> Ok (d, r')).
  { intros r d r'. unfold Dropout_init. now rewrite Hp. }
  assert (HP : forall i o h r m r', PositionFeedForward_init i o h p r <> Ok (m, r')).
  { intros i o h r m r' H. unfold PositionFeedForward_init in H.
    apply bind_ok in H as (l1 & r1 & _ & H).
    apply bind_ok in H as (l2 & r2 & _ & H).
    apply bind_ok in H as (dr & r3 & H & _). now apply HD in H. }
  assert (HL : forall d h f r l r', TransformerLayer_init d h f p r <> Ok (l, r')).
  { intros d h f r l r' H. unfold TransformerLayer_init in H.
    apply bind_ok in H as (nhid & r1 & _ & H).
    apply bind_ok in H as (att & r2 & _ & H).
    apply bind_ok in H as (lin & r3 & H & _). now apply HP in H. }
  repeat split; try assumption.
  - intros n d nh ff r m r' Hn H. unfold TransformerEncoder_init in H.
    apply bind_ok in H as (lf & s1 & _ & H).
    apply bind_ok in H as (lh & s2 & _ & H).
    apply bind_ok in H as (layers & s3 & Hl & _).
    destruct n as [|n]; [lia|]. simpl in Hl.
    apply bind_ok in Hl as (l & t1 & Hl & _).
    apply bind_ok in Hl as (f & t2 & _ & Hl).
    apply bind_ok in Hl as (h & t3 & _ & Hl). now apply HL in Hl.
  - intros n d nh ff r m r' Hn H. unfold TransformerDecoder_init in H.
    apply bind_ok in H as (lf & s1 & _ & H).
    apply bind_ok in H as (lh & s2 & _ & H).
    apply bind_ok in H as (layers & s3 & Hl & _).
    destruct n as [|n]; [lia|]. simpl in Hl.
    apply bind_ok in Hl as (l & t1 & Hl & _).
    apply bind_ok in Hl as (f & t2 & _ & Hl).
    apply bind_ok in Hl as (h & t3 & _ & Hl).
    unfold TransformerLayerDecoder_init in Hl.
    apply bind_ok in Hl as (base & t4 & Hl & _). now apply HL in Hl.
Qed.

End Constructed.

(** ** Layers and stacks under the shape contracts *)

Section Totality.
Context {B : Backend}.
Unset Implicit Arguments.
Variable training : bool.
Local Abbreviation tensor := (tensor T).
Hypothesis contract : shape_contract training.

Lemma broadcast_last_mismatch (s s' : list nat) d w :
  d <> w -> d <> 1 -> w <> 1 -> broadcast_shapes (s ++ [d]) (s' ++ [w]) = None.
Proof.
  intros H1 H2 H3. unfold broadcast_shapes. rewrite !rev_app_distr. simpl.
  destruct (broadcast_rev (rev s) (rev s')); [|reflexivity].
  apply Nat.eqb_neq in H1, H2, H3. now rewrite H1, H2, H3.
Qed.

Lemma bind_step {S A C} (m : M S A) (f : A -> M S C) s a s1 :
  m s = Ok (a, s1) -> bind m f s = f a s1.
Proof. intros H. unfold bind. now rewrite H. Qed.

Lemma bind_cong {S A C} (m m' : M S A) (f f' : A -> M S C) s :
  m s = m' s ->
  (forall a s1, m s = Ok (a, s1) -> f a s1 = f' a s1) ->
  bind m f s = bind m' f' s.
Proof.
  intros Hm Hf. unfold bind. rewrite <- Hm.
  destruct (m s) as [[a s1]|e]; [now apply Hf|reflexivity].
Qed.

Lemma bind_raise {S A C} (m : M S A) (f : A -> M S C) s e :
  m s = Raise e -> bind m f s = Raise e.
Proof. intros H. unfold bind. now rewrite H. Qed.

Lemma tensor_add_mismatch (x y : tensor) s s' d w :
  shape x = s ++ [d] -> shape y = s' ++ [w] ->
  d <> w -> d <> 1 -> w <> 1 ->
  tensor_add zero add x y = Raise RuntimeError.
Proof.
  intros Hx Hy H1 H2 H3. unfold tensor_add. rewrite Hx, Hy.
  now rewrite broadcast_last_mismatch.
Qed.

Lemma SubLayer_forward_raise (m : SubLayer) (x n y : tensor)
    (t : tensor -> M Rng tensor) r r' e :
  layer_norm_forward (layer_norm m) x = Ok n ->
  t n r = Ok (y, r') ->
  tensor_add zero add x y = Raise e ->
  SubLayer_forward m x t r = Raise e.
Proof.
  intros En Ey Ea. unfold SubLayer_forward, bind, lift. now rewrite En, Ey, Ea.
Qed.

(** X13. The divisibility that construction does not check surfaces at
    the first forward pass: a layer constructed with [in_features] of at
    least 2 that [num_heads] does not divide raises a RuntimeError on
    every input of shape (seq_len, batch, in_features) with a position,
    when the attention output of width [num_heads * nhid] is added to the
    input. *)
Theorem indivisible_layer_raises in_features num_heads ffnhid p r0 l r1
    (x : tensor) sl bs r :
  TransformerLayer_init in_features num_heads ffnhid p r0 = Ok (l, r1) ->
  in_features mod num_heads <> 0 ->
  1 < in_features ->
  shape x = [sl; bs; in_features] -> 0 < sl ->
  TransformerLayer_forward training l x r = Raise RuntimeError.
Proof.
  intros Hi Hdiv Hd Hx Hsl.
  apply TransformerLayer_init_ok in Hi as (Hnz & wa & w1 & w2 & n0 & n1 & ->).
  set (d := in_features) in *. set (h := num_heads) in *.
  assert (Hw : h * (d / h) <> d).
  { pose proof (Nat.div_mod_eq d h). lia. }
  assert (Hw1 : h * (d / h) <> 1).
  { intros E. apply Nat.eq_mul_1 in E as [E1 _]. apply Hdiv. rewrite E1.
    apply Nat.mod_1_r. }
  destruct (layer_norm_shape contract (MkLayerNorm [d] n0) x d [sl; bs] eq_refl Hx)
    as (n & En & Sn).
  rewrite Hx in Sn.
  destruct (AttentionLayer_forward_total training contract
              (tl_attention (layer_with d h ffnhid p wa w1 w2 n0 n1))
              n n n false sl sl bs r Hsl Sn Sn Sn) as (y & r' & Ey & Sy).
  unfold TransformerLayer_forward. cbv zeta.
  erewrite bind_step by reflexivity.
  apply bind_raise.
  eapply SubLayer_forward_raise; [exact En|exact Ey|].
  apply (tensor_add_mismatch x y [sl; bs] [sl; bs] d (h * (d / h)));
    [exact Hx|exact Sy| | |]; lia.
Qed.

(** X14. The residual add refuses incompatible widths: when the wrapped
    transformation returns a tensor whose last dimension differs from the
    input's and neither is 1, the sublayer raises a RuntimeError. *)
Theorem residual_width_mismatch (m : SubLayer) (x n y : tensor)
    (t : tensor -> M Rng tensor) s s' d w r r' :
  layer_norm_forward (layer_norm m) x = Ok n ->
  t n r = Ok (y, r') ->
  shape x = s ++ [d] -> shape y = s' ++ [w] ->
  d <> w -> d <> 1 -> w <> 1 ->
  SubLayer_forward m x t r = Raise RuntimeError.
Proof.
  intros En Ey Hx Hy H1 H2 H3.
  eapply SubLayer_forward_raise; [exact En|exact Ey|].
  now apply (tensor_add_mismatch x y s s' d w).
Qed.

(** X15. With a normalisation that keeps the shape, the encoder layer
    returns only on inputs that have at least one position, and only when
    its width [dim] is not zero. *)
Theorem encoder_layer_needs_positions (l : TransformerLayer) (x y : tensor) r r' :
  (forall m (u n : tensor), layer_norm_forward m u = Ok n -> shape n = shape u) ->
  TransformerLayer_forward training l x r = Ok (y, r') ->
  exists sl s, shape x = sl :: s /\ 0 < sl /\ tl_dim l <> 0.
Proof.
  intros Hln H. unfold TransformerLayer_forward in H. cbv zeta in H.
  apply bind_ok in H as (s0 & t0 & _ & H).
  apply bind_ok in H as (att & t1 & Ha & H).
  apply bind_ok in H as (s1 & t2 & _ & H).
  apply bind_ok in H as (flat & t3 & Hv & _).
  apply lift_ok in Hv as [Hv _].
  apply SubLayer_forward_ok in Ha as (n & y0 & En & Ey & _).
  apply Hln in En.
  apply AttentionLayer_forward_calls in Ey as (steps & outs & Hu & C & Hs).
  pose proof (calls_length C) as L.
  unfold unbind in Hu. rewrite En in Hu.
  destruct (shape x) as [|sl s]; [discriminate|].
  injection Hu as <-. rewrite length_map, chunks_length in L.
  exists sl, s. repeat split.
  - destruct outs; [discriminate Hs|]. simpl in L. lia.
  - unfold view_rows in Hv. intros E. rewrite E in Hv. discriminate Hv.
Qed.

Lemma unmasked_forward_ext (m : AttentionLayer) (x k k' : tensor) n r :
  shape0 x = Ok n ->
  slice_to zero n k = slice_to zero n k' ->
  AttentionLayer_forward training m x k k false r =
  AttentionLayer_forward training m x k' k' false r.
Proof.
  intros Hn Ek. unfold AttentionLayer_forward, bind.
  destruct (lift (unbind zero x) r) as [[steps r0]|e]; [|reflexivity].
  rewrite (@attention_loop_ext _ training m x k k k' k' false); [reflexivity|].
  intros index step. rewrite !(kernel_inputs_unmasked _ _ _ _ _ Hn).
  now rewrite Ek.
Qed.

(** X16. A constructed decoder layer does not look at encoder positions
    beyond the length of its decoder input: on a decoder input with
    [seq_len] positions, two encoder inputs that agree on their first
    [seq_len] positions give the same outcome. *)
Theorem decoder_layer_ignores_late_encoder_positions
    in_features num_heads ffnhid p r0 l r1
    (encoder_input encoder_input' decoder_input : tensor) sl bs r :
  TransformerLayerDecoder_init in_features num_heads ffnhid p r0 = Ok (l, r1) ->
  in_features mod num_heads = 0 ->
  shape decoder_input = [sl; bs; in_features] -> 0 < sl ->
  slice_to zero sl encoder_input = slice_to zero sl encoder_input' ->
  TransformerLayerDecoder_forward training l encoder_input decoder_input r =
  TransformerLayerDecoder_forward training l encoder_input' decoder_input r.
Proof.
  intros Hi Hdiv Hx Hsl Es.
  apply TransformerLayerDecoder_init_built in Hi
    as (Hnz & wa & w1 & w2 & n0 & n1 & wd & n2 & ->).
  set (d := in_features) in *. set (h := num_heads) in *.
  assert (Hmul : h * (d / h) = d).
  { pose proof (Nat.div_mod_eq d h). lia. }
  set (att := tl_attention (layer_with d h ffnhid p wa w1 w2 n0 n1)).
  unfold TransformerLayerDecoder_forward. cbv zeta.
  apply bind_cong; [reflexivity|]. intros s0 t Hs0.
  apply lift_ok in Hs0 as [Hs0 ->]. injection Hs0 as <-.
  apply bind_cong; [reflexivity|]. intros a0 t0 E0.
  apply bind_cong; [reflexivity|]. intros s1 t1 Hs1.
  apply lift_ok in Hs1 as [Hs1 ->]. injection Hs1 as <-.
  apply bind_cong; [|reflexivity].
  destruct (SubLayer_forward_total training contract
              (MkSubLayer [d] (MkLayerNorm [d] n0)) decoder_input
              (fun n => AttentionLayer_forward training att n n n true)
              d [sl; bs] r eq_refl Hx)
    as (z & tz & Ez & Sz).
  { intros n rn Sn. rewrite Hx in Sn.
    destruct (AttentionLayer_forward_total training contract att
                n n n true sl sl bs rn Hsl Sn Sn Sn) as (y & r' & Ey & Sy).
    exists y, r'. split; [exact Ey|]. rewrite Sy, Hx. simpl. now rewrite Hmul. }
  change (tl_attention (tld_base (decoder_layer_with d h ffnhid p wa w1 w2 n0 n1 wd n2)))
    with att in E0.
  rewrite Ez in E0. injection E0 as <- <-. rewrite Hx in Sz.
  destruct (layer_norm_shape contract (MkLayerNorm [d] n1) z d [sl; bs]
              eq_refl Sz) as (n & En & Sn).
  unfold SubLayer_forward, bind, lift. simpl layer_norm. rewrite En.
  change (tl_attention (tld_base (decoder_layer_with d h ffnhid p wa w1 w2 n0 n1 wd n2)))
    with att.
  rewrite (unmasked_forward_ext att n encoder_input encoder_input' sl tz);
    [reflexivity| |exact Es].
  unfold shape0. now rewrite Sn, Sz.
Qed.

End Totality.

(** ** The feed-forward block and the front-ends *)

Section FeedForward.
Context {B : Backend}.
Unset Implicit Arguments.
Variable training : bool.
Local Abbreviation tensor := (tensor T).
Hypothesis contract : shape_contract training.

(** X17. A constructed feed-forward block maps an input whose last
    dimension is [in_features] to an output with the same leading
    dimensions and last dimension [out_features], whatever the hidden
    width; in inference mode or at rate 0 it leaves the random generator
    untouched. *)
Theorem feed_forward_shape in_features out_features nhid p r0 m r1
    (x : tensor) s r :
  PositionFeedForward_init in_features out_features nhid p r0 = Ok (m, r1) ->
  shape x = s ++ [in_features] ->
  exists y r',
    PositionFeedForward_forward training m x r = Ok (y, r') /\
    shape y = s ++ [out_features] /\
    (dropout_off training p = true -> r' = r).
Proof.
  intros Hi Hx. unfold PositionFeedForward_init, Linear_init in Hi. run_inv Hi.
  match goal with
  | H : Dropout_init _ _ = Ok _ |- _ => apply Dropout_init_ok in H as ->
  end.
  match goal with
  | |- context [PositionFeedForward_forward _ ?m _ _] => set (pff := m)
  end.
  destruct (PositionFeedForward_forward_total training contract pff x s r
              eq_refl Hx) as (y & r' & Ey & Sy).
  exists y, r'. repeat split; [exact Ey|exact Sy|].
  intros Hoff. unfold PositionFeedForward_forward in Ey.
  apply bind_ok in Ey as (h & t1 & E1 & Ey). apply lift_ok in E1 as [_ ->].
  apply bind_ok in Ey as (o & t2 & E2 & Ey). apply lift_ok in E2 as [_ ->].
  unfold Dropout_forward in Ey. subst pff. simpl in Ey. rewrite Hoff in Ey.
  now apply ret_ok in Ey as [_ ->].
Qed.

End FeedForward.

Section FrontEnds.
Context {B : Backend} {F : Frontend B}.
Variable training : bool.
Local Abbreviation tensor := (tensor T).

Lemma feeds_shapes layers (x : tensor) r outs r' :
  feeds training layers x r outs r' ->
  Forall (fun y => shape y = shape x) outs.
Proof.
  induction 1; constructor.
  - eapply TransformerLayer_forward_shape; eassumption.
  - apply TransformerLayer_forward_shape in H.
    eapply Forall_impl; [|exact IHfeeds]. simpl. congruence.
Qed.

Lemma last_Forall {A} (P : A -> Prop) (l : list A) d :
  Forall P l -> P d -> P (last l d).
Proof.
  intros HF. revert d. induction HF as [|a l Ha _ IH]; intros d Hd; [exact Hd|].
  rewrite last_cons. apply IH. exact Ha.
Qed.

(** X18. Every per-layer output the encoder stack returns, and its final
    output, has the shape of the stack's input. *)
Theorem encoder_outputs_shaped_like_input (m : TransformerEncoder) (x : tensor)
    r fin outs r' :
  TransformerEncoder_forward training m x r = Ok (fin, outs, r') ->
  Forall (fun y => shape y = shape x) outs /\ shape fin = shape x.
Proof.
  unfold TransformerEncoder_forward. intros H.
  apply encoder_loop_feeds in H as (outs' & Fd & -> & ->). simpl.
  pose proof (@feeds_shapes _ _ _ _ _ Fd) as HF. split; [exact HF|].
  now apply (last_Forall (fun y => shape y = shape x)).
Qed.

(** X19. The encoder with an embedding front-end runs its stack on the
    embedded tokens: when it returns, the embedding returned a tensor,
    there is one output per layer, and every output is shaped like that
    embedded tensor. *)
Theorem encoder_embedding_forward (m : TransformerEncoderEmbedding)
    (input_tensors : Tokens) r fin outs r' :
  TransformerEncoderEmbedding_forward training m input_tensors r
    = Ok (fin, outs, r') ->
  exists e r1,
    Embeddings_forward training (tee_embeddings m) input_tensors r = Ok (e, r1) /\
    TransformerEncoder_forward training (tee_base m) e r1 = Ok (fin, outs, r') /\
    length outs = length (enc_layers (tee_base m)) /\
    Forall (fun y => shape y = shape e) outs /\
    shape fin = shape e.
Proof.
  unfold TransformerEncoderEmbedding_forward. intros H.
  apply bind_ok in H as (e & r1 & He & H). exists e, r1.
  split; [exact He|]. split; [exact H|].
  unfold TransformerEncoder_forward in H.
  apply encoder_loop_feeds in H as (outs' & Fd & -> & ->). simpl.
  pose proof (@feeds_shapes _ _ _ _ _ Fd) as HF.
  repeat split; [eapply feeds_length; eassumption|exact HF|].
  now apply (last_Forall (fun y => shape y = shape e)).
Qed.

(** X20. The decoder with an embedding front-end never returns: its
    forward pass hands the base class one positional argument where two
    are unpacked, so once the embedding has returned a ValueError is
    raised, and otherwise the embedding's own exception. *)
Theorem decoder_embedding_never_returns (m : TransformerDecoderEmbedding)
    (input_tensors : Tokens) r :
  (forall fin outs r',
     TransformerDecoderEmbedding_forward training m input_tensors r
       <> Ok (fin, outs, r')) /\
  (forall e r1,
     Embeddings_forward training (tde_embeddings m) input_tensors r = Ok (e, r1) ->
     TransformerDecoderEmbedding_forward training m input_tensors r
       = Raise ValueError) /\
  (forall err,
     Embeddings_forward training (tde_embeddings m) input_tensors r = Raise err ->
     TransformerDecoderEmbedding_forward training m input_tensors r = Raise err).
Proof.
  unfold TransformerDecoderEmbedding_forward, bind.
  destruct (Embeddings_forward training (tde_embeddings m) input_tensors r)
    as [[e r1]|err]; repeat split; try discriminate; try reflexivity.
  intros err' [= <-]. reflexivity.
Qed.

End FrontEnds.

(** ** Runs on the integer backend *)

Module Examples.
Import ZB Samples.

(** C1. A one-step query attending, unmasked, over two keys and values:
    the kernel is handed only the first key and the first value, so
    replacing the second ones changes neither the kernel's inputs nor
    the output. *)
Theorem unmasked_attention_drops_late_keys :
  keys12 <> keys13 /\
  unbind 0%Z query1 = Ok [step1] /\
  kernel_inputs query1 keys12 keys12 false 1 step1 =
    Ok (step1, ten [1; 1; 1] [1%Z], ten [1; 1; 1] [1%Z]) /\
  kernel_inputs query1 keys13 keys13 false 1 step1 =
    kernel_inputs query1 keys12 keys12 false 1 step1 /\
  AttentionLayer_forward false attention1 query1 keys13 keys13 false 0 =
    AttentionLayer_forward false attention1 query1 keys12 keys12 false 0 /\
  shown (AttentionLayer_forward false attention1 query1 keys12 keys12 false 0) =
    Ok ([1; 1; 1], [7%Z]).
Proof.
  split.
  { intros H. apply (f_equal (@data Z)) in H. discriminate H. }
  repeat split; reflexivity.
Qed.

(** C3 fails: with a kernel constructor that accepts its arguments, an
    attention block is constructed for 5 features and 2 heads. *)
Lemma attention_init_accepts_indivisible :
  ~ (forall (B : Backend) in_features num_heads p r,
       in_features mod num_heads <> 0 ->
       exists e, AttentionLayer_init in_features num_heads p r = Raise e).
Proof.
  intros H. destruct (H backend 5 2 (1 # 10) 0) as [e He].
  - discriminate.
  - discriminate He.
Qed.

Lemma causal_attention_prefix_witness :
  1 <= 1 /\
  AttentionLayer_forward false attention1 query2 keys12 keys12 true 0 =
    Ok (ten [2; 1; 1] [7; 12]%Z, 2) /\
  ((forall q, row 1 query2 = Some q ->
      exists keys values ri out ri',
        slice_to 0%Z 1 keys12 = Ok keys /\
        slice_to 0%Z 1 keys12 = Ok values /\
        mha_forward (al_attention attention1) false q keys values ri = Ok (out, ri') /\
        row 1 (ten [2; 1; 1] [7; 12]%Z) = Some out) /\
   (forall k' v' y' r1',
      slice_to 0%Z 1 keys12 = slice_to 0%Z 1 k' ->
      slice_to 0%Z 1 keys12 = slice_to 0%Z 1 v' ->
      AttentionLayer_forward false attention1 query2 k' v' true 0 = Ok (y', r1') ->
      row 1 y' = row 1 (ten [2; 1; 1] [7; 12]%Z))).
Proof.
  split; [lia|]. split; [reflexivity|].
  apply (@causal_attention_prefix backend false attention1 query2 keys12 keys12
           (ten [2; 1; 1] [7; 12]%Z) 0 2 1); [lia|reflexivity].
Defined.

Lemma encoder_forward_feeds_witness :
  TransformerEncoder_forward false encoder2 input24 0 =
    Ok (enc_out2, [enc_out1; enc_out2], 4) /\
  feeds false (enc_layers encoder2) input24 0 [enc_out1; enc_out2] 4 /\
  length [enc_out1; enc_out2] = length (enc_layers encoder2) /\
  enc_out2 = last [enc_out1; enc_out2] input24.
Proof.
  split; [reflexivity|].
  apply (proj1 (@encoder_forward_feeds backend false encoder2 input24 0
                  enc_out2 [enc_out1; enc_out2] 4)).
  reflexivity.
Defined.

Lemma decoder_forward_pairwise_witness :
  TransformerDecoder_forward false decoder2 [input24; input24] input24 0 =
    Ok (dec_out2, [dec_out1; dec_out2], 8) /\
  feeds_pairwise false [input24; input24] (dec_layers decoder2) input24 0
    [dec_out1; dec_out2] 8 /\
  length [dec_out1; dec_out2] = Nat.min (length (dec_layers decoder2)) 2 /\
  (2 = length (dec_layers decoder2) ->
   length [dec_out1; dec_out2] = length (dec_layers decoder2)) /\
  Forall (fun y => shape y = shape input24) [dec_out1; dec_out2] /\
  dec_out2 = last [dec_out1; dec_out2] input24.
Proof.
  split; [reflexivity|].
  apply (proj1 (@decoder_forward_pairwise backend false decoder2
                  [input24; input24] input24 0 dec_out2 [dec_out1; dec_out2] 8)).
  reflexivity.
Defined.

Lemma SubLayer_forward_residual_witness :
  layer_norm_forward (layer_norm sublayer2) input22 = Ok input22 /\
  ret (zeros_like 0%Z 0%Z input22) 0 = Ok (zeros_like 0%Z 0%Z input22, 0) /\
  shape (zeros_like 0%Z 0%Z input22) = shape input22 /\
  SubLayer_forward sublayer2 input22 (fun _ => ret (zeros_like 0%Z 0%Z input22)) 0 =
    Ok (pointwise 0%Z Z.add input22 (zeros_like 0%Z 0%Z input22), 0) /\
  SubLayer_forward sublayer2 input22 (fun _ => ret (zeros_like 0%Z 0%Z input22)) 0 =
    Ok (input22, 0).
Proof.
  split; [reflexivity|]. split; [reflexivity|]. split; [reflexivity|].
  destruct (@SubLayer_forward_residual backend sublayer2 input22 input22
              (zeros_like 0%Z 0%Z input22)
              (fun _ => ret (zeros_like 0%Z 0%Z input22)) 0 0
              eq_refl eq_refl eq_refl) as [H1 H2].
  split; [exact H1|]. apply H2; [exact Z.add_0_r|reflexivity].
Defined.

Lemma stack_init_broadcast_witness :
  (mismatched (PerLayer [4; 4]) 3 \/ mismatched (Scalar 16) 3) /\
  TransformerEncoder_init 3 8 (Scalar 4) (Scalar 16) 0 0 =
    TransformerEncoder_init 3 8 (PerLayer [4; 4; 4]) (Scalar 16) 0 0 /\
  TransformerEncoder_init 3 8 (PerLayer [4; 4]) (Scalar 16) 0 0 =
    Raise ConfigurationError /\
  TransformerDecoder_init 3 8 (PerLayer [4; 4]) (Scalar 16) 0 0 =
    Raise ConfigurationError.
Proof.
  assert (H : mismatched (PerLayer [4; 4]) 3 \/ mismatched (Scalar 16) 3).
  { left. simpl. lia. }
  destruct (@stack_init_broadcast backend 3 8 0 0) as [Hb Hm].
  split; [exact H|]. split.
  - exact (proj1 (Hb 4 (Scalar 16))).
  - exact (Hm (PerLayer [4; 4]) (Scalar 16) H).
Defined.

(** The integer backend keeps the shape contracts, and its kernel is
    deterministic once dropout is disabled. *)
Lemma contract training : @shape_contract backend training.
Proof.
  constructor.
  - intros m x f s _ _. now exists x.
  - intros l x s Hx. change (linear_forward l x) with (linear l x).
    change (@shape Z x = s ++ [lin_in_features l]) in Hx.
    unfold linear. rewrite Hx, last_last, Nat.eqb_refl.
    eexists. split; [reflexivity|]. simpl. now rewrite removelast_last.
  - intros m q k v bs kl r Hq _ _.
    change (mha_forward m training q k v r) with (kernel m training q k v r).
    change (@shape Z q = [bs; mha_query_dim m]) in Hq.
    unfold kernel. rewrite Hq. do 2 eexists. split; reflexivity.
  - intros p x r. reflexivity.
Qed.

Lemma kernel_is_quiet training : @quiet_kernel backend training.
Proof.
  intros m q k v H r r'.
  change (mha_forward m training q k v) with (kernel m training q k v).
  unfold kernel, active. unfold dropout_off in H.
  destruct training; simpl in *; [|reflexivity].
  now rewrite H.
Qed.

Lemma encoder_layer_preserves_shape_witness :
  TransformerLayer_forward false layer4 input24 0 = Ok (enc_out1, 2) /\
  shape enc_out1 = shape input24.
Proof.
  split; [reflexivity|].
  exact (@encoder_layer_preserves_shape backend false layer4 input24 enc_out1 0 2
           eq_refl).
Defined.

Lemma forward_deterministic_witness :
  @quiet_kernel backend true /\
  dropout_off true 0 = true /\
  TransformerEncoder_init 2 8 (Scalar 2) (Scalar 16) 0 0 =
    Ok (MkTransformerEncoder [layer_with 8 2 16 0 tt tt tt tt tt;
                              layer_with 8 2 16 0 tt tt tt tt tt], 10) /\
  forall r r',
    value (TransformerEncoder_forward true
             (MkTransformerEncoder [layer_with 8 2 16 0 tt tt tt tt tt;
                                    layer_with 8 2 16 0 tt tt tt tt tt])
             input328 r) =
    value (TransformerEncoder_forward true
             (MkTransformerEncoder [layer_with 8 2 16 0 tt tt tt tt tt;
                                    layer_with 8 2 16 0 tt tt tt tt tt])
             input328 r').
Proof.
  split; [exact (kernel_is_quiet true)|]. split; [reflexivity|].
  split; [reflexivity|].
  exact (proj1 (@forward_deterministic backend true 0 (kernel_is_quiet true) eq_refl)
           2 8 (Scalar 2) (Scalar 16) 0 _ 10 eq_refl input328).
Defined.

End Examples.

(** ** More runs on the integer backend *)

Module MoreExamples.
Import ZB Samples ZF.

Lemma unmasked_attention_ignores_late_keys_witness :
  shape0 query1 = Ok 1 /\
  slice_to 0%Z 1 keys12 = slice_to 0%Z 1 keys13 /\
  AttentionLayer_forward false attention1 query1 keys12 keys12 false 0 =
  AttentionLayer_forward false attention1 query1 keys13 keys13 false 0.
Proof.
  split; [reflexivity|]. split; [reflexivity|].
  exact (@unmasked_attention_ignores_late_keys backend false attention1
           query1 keys12 keys12 keys13 keys13 1 0 eq_refl eq_refl eq_refl).
Defined.

Lemma unmasked_attention_full_when_short_witness :
  shape query2 = [2; 1; 1] /\ shape keys12 = [2; 1; 1] /\ 2 <= 2 /\ 1 <= 1 /\
  AttentionLayer_forward false attention1 query2 keys12 keys12 false 0 =
    Ok (ten [2; 1; 1] [11; 12]%Z, 2) /\
  row 1 query2 = Some step1 /\
  exists ri out ri',
    mha_forward (al_attention attention1) false step1 keys12 keys12 ri
      = Ok (out, ri') /\
    row 1 (ten [2; 1; 1] [11; 12]%Z) = Some out.
Proof.
  split; [reflexivity|]. split; [reflexivity|]. split; [lia|]. split; [lia|].
  split; [reflexivity|]. split; [reflexivity|].
  apply (@unmasked_attention_full_when_short backend false attention1
           query2 keys12 keys12 (ten [2; 1; 1] [11; 12]%Z)
           2 [1; 1] 2 [1; 1] 2 [1; 1] 0 2 1);
    try reflexivity; lia.
Defined.

Lemma attention_output_rows_witness :
  AttentionLayer_forward false attention1 query2 keys12 keys12 true 0 =
    Ok (ten [2; 1; 1] [7; 12]%Z, 2) /\
  exists sl s s',
    shape query2 = sl :: s /\ shape (ten [2; 1; 1] [7; 12]%Z) = sl :: s' /\ 0 < sl.
Proof.
  split; [reflexivity|].
  exact (@attention_output_rows backend false attention1 query2 keys12 keys12
           (ten [2; 1; 1] [7; 12]%Z) true 0 2 eq_refl).
Defined.

Lemma attention_degenerate_query_witness :
  shape scalar_query = [] /\
  AttentionLayer_forward false attention1 scalar_query keys12 keys12 true 0 =
    Raise TypeError /\
  shape empty_query = [0; 1; 1] /\
  AttentionLayer_forward false attention1 empty_query keys12 keys12 false 0 =
    Raise RuntimeError.
Proof.
  split; [reflexivity|]. split.
  - exact (proj1 (@attention_degenerate_query backend false attention1
                    scalar_query keys12 keys12 true 0) eq_refl).
  - split; [reflexivity|].
    exact (proj2 (@attention_degenerate_query backend false attention1
                    empty_query keys12 keys12 false 0) [1; 1] eq_refl).
Defined.

Lemma encoder_init_layers_witness :
  TransformerEncoder_init 2 8 (Scalar 2) (Scalar 16) 0 0 = Ok (encoder8, 10) /\
  exists heads widths,
    get_list (Scalar 2) 2 = Ok heads /\
    get_list (Scalar 16) 2 = Ok widths /\
    length (enc_layers encoder8) = 2 /\
    forall i l, nth_error (enc_layers encoder8) i = Some l ->
      exists h f wa w1 w2 n0 n1,
        nth_error heads i = Some h /\ nth_error widths i = Some f /\ h <> 0 /\
        l = layer_with 8 h f 0 wa w1 w2 n0 n1.
Proof.
  split; [reflexivity|].
  exact (@encoder_init_layers backend 2 8 (Scalar 2) (Scalar 16) 0 0 encoder8 10
           eq_refl).
Defined.

Lemma decoder_init_layers_witness :
  TransformerDecoder_init 2 8 (Scalar 2) (Scalar 16) 0 0 = Ok (decoder8, 14) /\
  exists heads widths,
    get_list (Scalar 2) 2 = Ok heads /\
    get_list (Scalar 16) 2 = Ok widths /\
    length (dec_layers decoder8) = 2 /\
    forall i l, nth_error (dec_layers decoder8) i = Some l ->
      exists h f wa w1 w2 n0 n1 wd n2,
        nth_error heads i = Some h /\ nth_error widths i = Some f /\ h <> 0 /\
        l = decoder_layer_with 8 h f 0 wa w1 w2 n0 n1 wd n2 /\
        length (tl_sublayers (tld_base l)) = 3 /\
        mha_num_heads (al_attention (decoder_attention l)) =
          mha_num_heads (al_attention (tl_attention (tld_base l))).
Proof.
  split; [reflexivity|].
  exact (@decoder_init_layers backend 2 8 (Scalar 2) (Scalar 16) 0 0 decoder8 14
           eq_refl).
Defined.

Lemma zero_heads_raise_witness :
  0 < 2 /\ ~ mismatched (Scalar 16) 2 /\
  TransformerEncoder_init 2 8 (Scalar 0) (Scalar 16) 0 0 = Raise ZeroDivisionError /\
  TransformerDecoder_init 2 8 (Scalar 0) (Scalar 16) 0 0 = Raise ZeroDivisionError.
Proof.
  assert (H : ~ mismatched (Scalar 16) 2) by (intros []).
  split; [lia|]. split; [exact H|].
  exact (@zero_heads_raise backend 2 8 (Scalar 16) 0 0 ltac:(lia) H).
Defined.

Lemma dropout_rate_out_of_range_witness :
  Qle_bool 0 (3 # 2) && Qle_bool (3 # 2) 1 = false /\
  (forall l r', TransformerLayer_init 8 2 16 (3 # 2) 0 <> Ok (l, r')) /\
  (forall m r',
     TransformerEncoder_init 2 8 (Scalar 2) (Scalar 16) (3 # 2) 0 <> Ok (m, r')).
Proof.
  split; [reflexivity|].
  destruct (@dropout_rate_out_of_range backend (3 # 2) eq_refl)
    as (_ & HL & HE & _).
  split.
  - intros l r'. apply HL.
  - intros m r'. apply HE. lia.
Defined.

Lemma indivisible_layer_raises_witness :
  @shape_contract backend false /\
  TransformerLayer_init 5 2 8 0 0 = Ok (layer5, 5) /\
  5 mod 2 <> 0 /\ 1 < 5 /\ shape input115 = [1; 1; 5] /\ 0 < 1 /\
  TransformerLayer_forward false layer5 input115 5 = Raise RuntimeError.
Proof.
  assert (H : 5 mod 2 <> 0) by discriminate.
  split; [exact (Examples.contract false)|]. split; [reflexivity|].
  split; [exact H|]. split; [lia|]. split; [reflexivity|]. split; [lia|].
  apply (@indivisible_layer_raises backend false (Examples.contract false)
           5 2 8 0 0 layer5 5 input115 1 1 5);
    try reflexivity; try exact H; lia.
Defined.

Lemma residual_width_mismatch_witness :
  layer_norm_forward (layer_norm sublayer2) input22 = Ok input22 /\
  ret input23 0 = Ok (input23, 0) /\
  shape input22 = [2] ++ [2] /\ shape input23 = [2] ++ [3] /\
  2 <> 3 /\ 2 <> 1 /\ 3 <> 1 /\
  SubLayer_forward sublayer2 input22 (fun _ => ret input23) 0 = Raise RuntimeError.
Proof.
  split; [reflexivity|]. split; [reflexivity|]. split; [reflexivity|].
  split; [reflexivity|]. split; [lia|]. split; [lia|]. split; [lia|].
  apply (@residual_width_mismatch backend sublayer2 input22 input22 input23
           (fun _ => ret input23) [2] [2] 2 3 0 0);
    try reflexivity; lia.
Defined.

Lemma encoder_layer_needs_positions_witness :
  (forall m (u n : tensor Z), layer_norm_forward m u = Ok n -> shape n = shape u) /\
  TransformerLayer_forward false layer4 input24 0 = Ok (enc_out1, 2) /\
  exists sl s, shape input24 = sl :: s /\ 0 < sl /\ tl_dim layer4 <> 0.
Proof.
  assert (H : forall m (u n : tensor Z),
             layer_norm_forward m u = Ok n -> shape n = shape u).
  { intros m u n E. apply Ok_inj in E. now subst. }
  split; [exact H|]. split; [reflexivity|].
  exact (@encoder_layer_needs_positions backend false layer4 input24 enc_out1 0 2
           H eq_refl).
Defined.

Lemma decoder_layer_ignores_late_encoder_positions_witness :
  @shape_contract backend false /\
  TransformerLayerDecoder_init 8 2 16 0 0 = Ok (declayer8, 7) /\
  8 mod 2 = 0 /\ shape target218 = [2; 1; 8] /\ 0 < 2 /\
  slice_to 0%Z 2 memory318 = slice_to 0%Z 2 memory318' /\
  memory318 <> memory318' /\
  TransformerLayerDecoder_forward false declayer8 memory318 target218 0 =
  TransformerLayerDecoder_forward false declayer8 memory318' target218 0.
Proof.
  split; [exact (Examples.contract false)|]. split; [reflexivity|].
  split; [reflexivity|]. split; [reflexivity|]. split; [lia|].
  split; [reflexivity|]. split.
  - intros E. apply (f_equal (@data Z)) in E. discriminate E.
  - apply (@decoder_layer_ignores_late_encoder_positions backend false
             (Examples.contract false) 8 2 16 0 0 declayer8 7
             memory318 memory318' target218 2 1 0);
      try reflexivity; lia.
Defined.

Lemma feed_forward_shape_witness :
  @shape_contract backend true /\
  PositionFeedForward_init 4 6 8 0 0 = Ok (feedforward46, 2) /\
  shape input24 = [2; 1] ++ [4] /\
  exists y r',
    PositionFeedForward_forward true feedforward46 input24 9 = Ok (y, r') /\
    shape y = [2; 1] ++ [6] /\
    (dropout_off true 0 = true -> r' = 9).
Proof.
  split; [exact (Examples.contract true)|]. split; [reflexivity|].
  split; [reflexivity|].
  exact (@feed_forward_shape backend true (Examples.contract true)
           4 6 8 0 0 feedforward46 2 input24 [2; 1] 9 eq_refl eq_refl).
Defined.

Lemma encoder_outputs_shaped_like_input_witness :
  TransformerEncoder_forward false encoder2 input24 0 =
    Ok (enc_out2, [enc_out1; enc_out2], 4) /\
  Forall (fun y => shape y = shape input24) [enc_out1; enc_out2] /\
  shape enc_out2 = shape input24.
Proof.
  split; [reflexivity|].
  exact (@encoder_outputs_shaped_like_input backend false encoder2 input24 0
           enc_out2 [enc_out1; enc_out2] 4 eq_refl).
Defined.

Lemma encoder_embedding_forward_witness :
  TransformerEncoderEmbedding_forward false encoder_embedding2 tokens21 0 =
    Ok (embedded_out2, [embedded_out1; embedded_out2], 4) /\
  exists e r1,
    Embeddings_forward false (tee_embeddings encoder_embedding2) tokens21 0
      = Ok (e, r1) /\
    TransformerEncoder_forward false (tee_base encoder_embedding2) e r1 =
      Ok (embedded_out2, [embedded_out1; embedded_out2], 4) /\
    length [embedded_out1; embedded_out2] =
      length (enc_layers (tee_base encoder_embedding2)) /\
    Forall (fun y => shape y = shape e) [embedded_out1; embedded_out2] /\
    shape embedded_out2 = shape e.
Proof.
  assert (H : TransformerEncoderEmbedding_forward false encoder_embedding2
                tokens21 0 =
              Ok (embedded_out2, [embedded_out1; embedded_out2], 4)).
  { vm_compute. reflexivity. }
  split; [exact H|].
  exact (@encoder_embedding_forward backend frontend false encoder_embedding2
           tokens21 0 embedded_out2 [embedded_out1; embedded_out2] 4 H).
Defined.

Lemma decoder_embedding_never_returns_witness :
  Embeddings_forward false (tde_embeddings decoder_embedding2) tokens21 0 =
    Ok (embedded214, 0) /\
  TransformerDecoderEmbedding_forward false decoder_embedding2 tokens21 0 =
    Raise ValueError.
Proof.
  assert (H : Embeddings_forward false (tde_embeddings decoder_embedding2)
                tokens21 0 = Ok (embedded214, 0)).
  { vm_compute. reflexivity. }
  split; [exact H|].
  exact (proj1 (proj2 (@decoder_embedding_never_returns backend frontend false
                         decoder_embedding2 tokens21 0))
           embedded214 0 H).
Defined.

End MoreExamples.
